(** * HAProxy configuration synthesis (haproxy.js): model and properties

    A shallow embedding of [src/haproxy.js].  Text is [string]; the
    template literals of the source are kept as literals, line breaks
    included, and are filled in by a model of Node's [util.format].
    The two entry points read the preamble template from disk and
    register network access on the services behind the proxy: both
    effects are threaded through a small state-and-exception monad over
    a [World]. *)

From Stdlib Require Import String Ascii DecimalString DecimalNat.
From stdpp Require Import gmap strings list.

(* Let [simpl] compute with string concatenation on literal prefixes. *)
#[local] Arguments String.append !_ _ : simpl nomatch.

(** ** Text helpers *)

Module Text.

(** The line feed character, and the one-character string of it
    (the ['\n'] of the source). *)
Definition LF : ascii := "010"%char.
Definition newline : string := String LF "".

(** [String(n)] for a non-negative integer [n]: its decimal digits. *)
Definition decimal (n : nat) : string :=
  NilEmpty.string_of_uint (Nat.to_uint n).

(** JS [text.split('\n')]: the pieces between line feeds; a text
    without line feed is its own single piece. *)
Fixpoint lines (s : string) : list string :=
  match s with
  | EmptyString => [""]
  | String c r =>
      if Ascii.eqb c LF then "" :: lines r
      else match lines r with
           | [] => [String c ""]
           | l :: ls => String c l :: ls
           end
  end.

(** Whether [p] is a prefix of [s] (JS [s.startsWith(p)]). *)
Fixpoint startsWith (p s : string) : bool :=
  match p, s with
  | EmptyString, _ => true
  | String a p', String b s' => Ascii.eqb a b && startsWith p' s'
  | String _ _, EmptyString => false
  end.

(** [s] with its first [n] characters removed (JS [s.slice(n)]). *)
Fixpoint dropChars (n : nat) (s : string) : string :=
  match n, s with
  | O, _ => s
  | S n', String _ s' => dropChars n' s'
  | S _, EmptyString => ""
  end.

(** The characters of [s] before its first space (JS
    [s.split(' ')[0]]). *)
Fixpoint firstWord (s : string) : string :=
  match s with
  | EmptyString => ""
  | String c r => if Ascii.eqb c " "%char then "" else String c (firstWord r)
  end.

(** [s] holds no character [c]. *)
Fixpoint lacks (c : ascii) (s : string) : bool :=
  match s with
  | EmptyString => true
  | String a r => negb (Ascii.eqb a c) && lacks c r
  end.

(** A text that fits on one line. *)
Definition singleLine (s : string) : bool := lacks LF s.

(** A token of the target grammar: one word on one line. *)
Definition token (s : string) : bool := lacks LF s && lacks " "%char s.

(** A line with something on it. *)
Definition nonEmpty (l : string) : bool := negb (String.eqb l "").

(** Maximal runs of non-empty lines: the blocks of a text whose blocks
    are set apart by blank lines. *)
Definition flush (cur : list string) : list (list string) :=
  match cur with [] => [] | _ => [cur] end.

Fixpoint paragraphsFrom (cur : list string) (ls : list string)
  : list (list string) :=
  match ls with
  | [] => flush cur
  | l :: ls' =>
      if String.eqb l "" then flush cur ++ paragraphsFrom [] ls'
      else paragraphsFrom (cur ++ [l]) ls'
  end.

Definition paragraphs (ls : list string) : list (list string) :=
  paragraphsFrom [] ls.

End Text.
Import Text.

(** ** Node's [util.format] *)

Module Util.

(** The arguments the call sites pass: strings, non-negative integers,
    and [undefined] (what indexing an array out of range yields). *)
Inductive arg :=
| AStr (s : string)
| ANum (n : nat)
| AUndefined.

(** [%s] prints [String(a)]. *)
Definition showS (a : arg) : string :=
  match a with
  | AStr s => s
  | ANum n => decimal n
  | AUndefined => "undefined"
  end.

(** [%d] prints [Number(a)].  No call site passes a string to [%d];
    for one, only strings that are not numerals are covered here
    ([Number] of them is [NaN]). *)
Definition showD (a : arg) : string :=
  match a with
  | AStr _ => "NaN"
  | ANum n => decimal n
  | AUndefined => "NaN"
  end.

(** The scan of [util.format] over the format string [f], with the
    arguments still to print: each [%s] and [%d] consumes one argument,
    [%%] prints a percent sign, a directive with no argument left stays
    as it is, and arguments left over are appended, each after a
    space.  (The other directives of [util.format] do not occur in this
    program.) *)
Fixpoint formatFrom (f : string) (args : list arg) : string :=
  match f with
  | EmptyString => String.concat "" (map (fun a => " " +:+ showS a) args)
  | String c t =>
      match t with
      | EmptyString => String c (formatFrom t args)
      | String d t' =>
          if Ascii.eqb c "%"%char then
            if Ascii.eqb d "s"%char then
              match args with
              | a :: args' => showS a +:+ formatFrom t' args'
              | [] => String c (String d (formatFrom t' []))
              end
            else if Ascii.eqb d "d"%char then
              match args with
              | a :: args' => showD a +:+ formatFrom t' args'
              | [] => String c (String d (formatFrom t' []))
              end
            else if Ascii.eqb d "%"%char then
              String "%"%char (formatFrom t' args)
            else String c (formatFrom t args)
          else String c (formatFrom t args)
      end
  end.

(** [util.format(f, ...args)]: a format string alone is returned as it
    is. *)
Definition format (f : string) (args : list arg) : string :=
  match args with
  | [] => f
  | _ :: _ => formatFrom f args
  end.

End Util.
Import Util.

(** ** The program *)

(** A service of the orchestration layer, as this file uses it: its
    [name], and the snapshot [children()] returns (the addresses of its
    replicas, in order). *)
Record Service := mkService {
  name : string;
  children : list string
}.

(** A parameter documented as [(Service|Service[])]: the source tells
    the two apart with [Array.isArray]. *)
Inductive ServiceOrArray :=
| One (s : Service)
| Many (l : list Service).

Definition toArray (services : ServiceOrArray) : list Service :=
  match services with
  | Many l => l
  | One s => [s]
  end.

Definition image : string := "haproxy:1.7".
Definition configPath : string := "/usr/local/etc/haproxy/haproxy.cfg".

(** The port HAProxy uses to communicate with the services behind it. *)
Definition internalPort : nat := 80.

(** The port HAProxy listens on. *)
Definition exposedPort : nat := 80.

Definition backendPattern : string := "
backend %s
    balance %s
    cookie SERVERID insert indirect nocache".

Definition serverPattern : string := "
    server %s %s:%d check resolvers dns cookie %s".

Definition defaultBackendPattern : string := "
    default_backend %s".

Definition aclPattern : string := "
    acl %s hdr(host) -i %s".

Definition useBackendPattern : string := "
    use_backend %s if %s".

Definition backendName (service : Service) : string := name service.

(** [addrs[i]]. *)
Definition index (addrs : list string) (i : nat) : arg :=
  match addrs !! i with
  | Some a => AStr a
  | None => AUndefined
  end.

(** The body of the [for] loop of [createBackendConfigs], at index [i]. *)
Definition serverStep (name : string) (addrs : list string)
    (config : string) (i : nat) : string :=
  let serverName := format "%s-%d" [AStr name; ANum i] in
  config +:+ format serverPattern
    [AStr serverName; index addrs i; ANum internalPort; AStr serverName].

(** The callback of [services.forEach] in [createBackendConfigs]. *)
Definition backendStep (balance : string) (config : string)
    (service : Service) : string :=
  let name := backendName service in
  let addrs := children service in
  let config := config +:+ format backendPattern [AStr name; AStr balance] in
  let config := foldl (serverStep name addrs) config (seq 0 (length addrs)) in
  config +:+ newline.

Definition createBackendConfigs (services : ServiceOrArray)
    (balance : string) : string :=
  let services := toArray services in
  foldl (backendStep balance) "" services.

(** *** The routing map

    [domainToService] is a JS object used as a map from domain name to
    service.  It is kept as what the program observes of it.
    [visited] is the sequence of enumerable properties a [for ... in]
    loop visits, in that order; a property is the object's own or comes
    from its prototype chain.  [inheritsObject] tells whether
    [Object.prototype] is on the prototype chain: it is for an object
    literal, it is not for an object made by [Object.create(null)].
    The method [hasOwnProperty] lives on [Object.prototype];
    [domainToService[domain]] at a visited [domain] is the value of the
    property visited.  All values of the map are services, as its
    documented type [Object.<string, Service>] has it. *)
Record Property := mkProperty {
  key : string;
  own : bool;
  value : Service
}.

Record JSObject := mkObject {
  visited : list Property;
  inheritsObject : bool
}.

(** An object literal with the given keys, none of them an array
    index, so that the loop visits them as written: all properties are
    own. *)
Definition literal (kvs : list (string * Service)) : JSObject :=
  mkObject (map (fun kv => mkProperty kv.1 true kv.2) kvs) true.

(** What the property access [domainToService.hasOwnProperty] finds: a
    property of the map with that key, own or inherited, comes first;
    then the method of [Object.prototype], if the map inherits from it;
    else nothing. *)
Inductive Found :=
| FoundService (s : Service)
| FoundBuiltin
| FoundUndefined.

Definition getHasOwnProperty (o : JSObject) : Found :=
  match find (fun p => String.eqb (key p) "hasOwnProperty") (visited o) with
  | Some p => FoundService (value p)
  | None => if inheritsObject o then FoundBuiltin else FoundUndefined
  end.

(** *** Effects: the template on disk, and access grants *)

(** [service.allowFrom(src, port)], recorded by service name. *)
Record Connection := mkConnection {
  connTo : string;
  connFrom : string;
  connPort : nat
}.

Record World := mkWorld {
  dirname : string;               (* [__dirname] of the module *)
  disk : gmap string string;      (* readable files, by path *)
  allowed : list Connection       (* grants made so far, oldest first *)
}.

Inductive Error :=
| ENOENT (path : string)
| TypeError (message : string).

Inductive Result (A : Type) :=
| Ok (a : A) (w : World)
| Throw (e : Error).
Arguments Ok {A} a w.
Arguments Throw {A} e.

Definition M (A : Type) : Type := World -> Result A.

Definition ret {A} (a : A) : M A := fun w => Ok a w.

Definition bind {A B} (m : M A) (k : A -> M B) : M B :=
  fun w => match m w with
           | Ok a w' => k a w'
           | Throw e => Throw e
           end.

#[global] Instance M_ret : MRet M := @ret.
#[global] Instance M_bind : MBind M := fun A B k m => bind m k.

(** [array.forEach(f)] for an effectful callback. *)
Fixpoint forEach {A} (l : list A) (f : A -> M unit) : M unit :=
  match l with
  | [] => mret tt
  | x :: l' => f x ;; forEach l' f
  end.

(** [for (let domain in o) body], for a body that works on an
    accumulator and may throw: the properties are visited in order, and
    the loop stops at the first throw. *)
Fixpoint forIn {A} (ps : list Property) (body : A -> Property -> M A)
    (acc : A) : M A :=
  match ps with
  | [] => mret acc
  | p :: ps' => acc' ← body acc p; forIn ps' body acc'
  end.

(** The call [domainToService.hasOwnProperty(domain)] made while the
    loop visits the property [p] whose key is [domain].  What the
    access finds is called: the method of [Object.prototype] answers
    whether the property visited is the map's own; a service or
    [undefined] cannot be called. *)
Definition hasOwnProperty (o : JSObject) (p : Property) : M bool :=
  fun w => match getHasOwnProperty o with
           | FoundBuiltin => Ok (own p) w
           | FoundService _ | FoundUndefined =>
               Throw (TypeError
                        "domainToService.hasOwnProperty is not a function")
           end.

Definition getDirname : M string := fun w => Ok (dirname w) w.

(** [fs.readFileSync(path, {encoding: 'utf8'})]: throws when the file
    cannot be read. *)
Definition readFileSync (path : string) : M string :=
  fun w => match disk w !! path with
           | Some text => Ok text w
           | None => Throw (ENOENT path)
           end.

(** [path.join(dir, file)] for a directory and a plain file name. *)
Definition pathJoin (dir file : string) : string := dir +:+ "/" +:+ file.

Definition allowFrom (service : Service) (src : string) (port : nat)
    : M unit :=
  fun w => Ok tt (mkWorld (dirname w) (disk w)
                    (allowed w ++ [mkConnection (name service) src port])).

(** Modelled from the spec: [Mustache.render] and the template
    [haproxy.cfg] are not part of [src/]; the spec has the preamble
    rendered "with [exposedPort] substituted into its one recognized
    placeholder".  The placeholder is the Mustache variable tag
    [{{port}}]; every other character of the template is kept. *)
Fixpoint renderFrom (fuel : nat) (templ : string) (port : nat) : string :=
  match fuel with
  | O => ""
  | S fuel' =>
      if startsWith "{{port}}" templ
      then decimal port +:+ renderFrom fuel' (dropChars 8 templ) port
      else match templ with
           | EmptyString => ""
           | String c t => String c (renderFrom fuel' t port)
           end
  end.

Definition render (templ : string) (port : nat) : string :=
  renderFrom (S (String.length templ)) templ port.

(** *** The rest of the program *)

Definition createConfigFiles (frontendConfig backendConfig : string)
    : M (gmap string string) :=
  dir ← getDirname;
  configTempl ← readFileSync (pathJoin dir "haproxy.cfg");
  let config := render configTempl exposedPort in
  let config := config +:+ (frontendConfig +:+ newline +:+ backendConfig) in
  let files : gmap string string := ∅ in
  let files := <[configPath := config]> files in
  mret files.

Record Container := mkContainer {
  containerImage : string;
  command : list string;
  filepathToContent : gmap string string
}.

Definition withFiles (c : Container) (files : gmap string string)
    : Container :=
  mkContainer (containerImage c) (command c) files.

(** The service [new Service(name, containers)] makes. *)
Record ProxyService := mkProxyService {
  serviceName : string;
  containers : list Container
}.

Definition createHapService (n : nat) (services : ServiceOrArray)
    (files : gmap string string) : M ProxyService :=
  let services := toArray services in
  let hapRef :=
    withFiles
      (mkContainer image
         ["haproxy-systemd-wrapper"; "-p"; "/run/haproxy.pid"; "-f";
          configPath] ∅)
      files in
  let haproxy := mkProxyService "haproxy" (replicate n hapRef) in
  forEach services
    (fun service => allowFrom service (serviceName haproxy) internalPort);;
  mret haproxy.

(** An omitted [balance] is [None]; the default of the parameter list
    then applies. *)
Definition singleServiceLoadBalancer (n : nat) (service : Service)
    (balance : option string) : M ProxyService :=
  let balance := default "roundrobin" balance in
  let frontendConfig :=
    format defaultBackendPattern [AStr (backendName service)] in
  let backendConfig := createBackendConfigs (One service) balance in
  files ← createConfigFiles frontendConfig backendConfig;
  createHapService n (One service) files.

(** One turn of the [for ... in] loop of [urlRoutingConfig], on the pair
    [(acls, backendRules)]. *)
Definition routingStep (domainToService : JSObject)
    (acc : string * string) (p : Property) : M (string * string) :=
  let '(acls, backendRules) := acc in
  let domain := key p in
  isOwn ← hasOwnProperty domainToService p;
  if negb isOwn then mret (acls, backendRules)
  else
    let name := backendName (value p) in
    let match_ := name +:+ "_req" in
    mret (acls +:+ format aclPattern [AStr match_; AStr domain],
          backendRules +:+ format useBackendPattern [AStr name; AStr match_]).

Definition urlRoutingConfig (domainToService : JSObject) : M string :=
  '(acls, backendRules) ←
    forIn (visited domainToService) (routingStep domainToService) ("", "");
  mret (acls +:+ backendRules).

(** One turn of the [for ... in] loop of [withURLrouting]. *)
Definition collectStep (domainToService : JSObject)
    (services : list Service) (p : Property) : M (list Service) :=
  isOwn ← hasOwnProperty domainToService p;
  if isOwn : bool then mret (services ++ [value p]) else mret services.

Definition withURLrouting (n : nat) (domainToService : JSObject)
    (balance : option string) : M ProxyService :=
  let balance := default "roundrobin" balance in
  services ← forIn (visited domainToService) (collectStep domainToService)
               [];
  frontendConfig ← urlRoutingConfig domainToService;
  let backendConfig := createBackendConfigs (Many services) balance in
  files ← createConfigFiles frontendConfig backendConfig;
  createHapService n (Many services) files.

(** ** The layout of the generated text

    The structured reading of the output: the descriptors and rules of
    the data model, the line each of them is printed as, and the
    functions that read them back from a text.  The theorems below
    relate the program's text to these. *)

Module Layout.

Record ServerEntry := mkServerEntry {
  id : string;
  address : string;
  port : nat;
  cookie : string
}.

Record BackendDescriptor := mkBackendDescriptor {
  backend : string;
  balanceAlgorithm : string;
  servers : list ServerEntry
}.

Record FrontendRule := mkFrontendRule {
  matchId : string;
  domain : string;
  target : string
}.

(** The [i]-th endpoint [addr] of the service called [name]. *)
Definition serverEntry (name : string) (i : nat) (addr : string)
    : ServerEntry :=
  mkServerEntry (name +:+ "-" +:+ decimal i) addr internalPort
    (name +:+ "-" +:+ decimal i).

Definition descriptor (balance : string) (s : Service)
    : BackendDescriptor :=
  mkBackendDescriptor (name s) balance
    (imap (serverEntry (name s)) (children s)).

Definition rule (p : Property) : FrontendRule :=
  mkFrontendRule (name (value p) +:+ "_req") (key p) (name (value p)).

(** The own properties of a routing map, in iteration order. *)
Definition ownProperties (o : JSObject) : list Property :=
  filter own (visited o).

(** The services a routing map refers to, one per domain key. *)
Definition referenced (o : JSObject) : list Service :=
  map value (ownProperties o).

(** A service is identified by its name: the distinct services a
    routing map refers to. *)
Definition distinctServices (o : JSObject) : list string :=
  remove_dups (map name (referenced o)).

(** *** Lines *)

Definition headerLine (name : string) : string := "backend " +:+ name.

Definition balanceLine (balance : string) : string :=
  "    balance " +:+ balance.

Definition cookieLine : string :=
  "    cookie SERVERID insert indirect nocache".

Definition serverLine (e : ServerEntry) : string :=
  "    server " +:+ id e +:+ " " +:+ address e +:+ ":" +:+
  decimal (port e) +:+ " check resolvers dns cookie " +:+ cookie e.

Definition blockLines (d : BackendDescriptor) : list string :=
  headerLine (backend d) :: balanceLine (balanceAlgorithm d) ::
  cookieLine :: map serverLine (servers d).

(** Host header equal to the domain, compared without regard to case
    ([-i]). *)
Definition aclLine (r : FrontendRule) : string :=
  "    acl " +:+ matchId r +:+ " hdr(host) -i " +:+ domain r.

Definition useBackendLine (r : FrontendRule) : string :=
  "    use_backend " +:+ target r +:+ " if " +:+ matchId r.

Definition defaultBackendLine (name : string) : string :=
  "    default_backend " +:+ name.

(** Lines printed one after the other, each after a line feed. *)
Fixpoint prefixed (ls : list string) : string :=
  match ls with
  | [] => ""
  | l :: ls' => newline +:+ l +:+ prefixed ls'
  end.

(** *** Sections *)

(** The text of one backend block. *)
Definition blockText (balance : string) (s : Service) : string :=
  prefixed (blockLines (descriptor balance s)) +:+ newline.

(** The text of the blocks of several services. *)
Fixpoint blocksText (balance : string) (l : list Service) : string :=
  match l with
  | [] => ""
  | s :: l' => blockText balance s +:+ blocksText balance l'
  end.

(** The lines of the backend section: an empty first piece, then each
    block followed by an empty piece. *)
Definition sectionLines (balance : string) (l : list Service)
    : list string :=
  "" :: flat_map (fun s => blockLines (descriptor balance s) ++ [""]) l.

(** The lines of the rules of a routing map. *)
Definition aclLines (o : JSObject) : list string :=
  map (fun p => aclLine (rule p)) (ownProperties o).

Definition useBackendLines (o : JSObject) : list string :=
  map (fun p => useBackendLine (rule p)) (ownProperties o).

(** *** Reading a text back *)

Definition isHeader (l : string) : bool := startsWith "backend " l.
Definition isServer (l : string) : bool := startsWith "    server " l.
Definition isAcl (l : string) : bool := startsWith "    acl " l.
Definition isUseBackend (l : string) : bool :=
  startsWith "    use_backend " l.
Definition isDefaultBackend (l : string) : bool :=
  startsWith "    default_backend " l.

(** The name a header line declares. *)
Definition headerName (l : string) : string := dropChars 8 l.

(** The backend a use-backend line routes to. *)
Definition useBackendTarget (l : string) : string :=
  firstWord (dropChars 16 l).

Definition startsBlock (p : list string) : bool :=
  match p with
  | h :: _ => isHeader h
  | [] => false
  end.

(** The backend blocks of a backend section: its paragraphs that open
    with a header line. *)
Definition backendBlocks (text : string) : list (list string) :=
  filter (fun p => startsBlock p = true) (paragraphs (lines text)).

(** The names the backend section declares, in order. *)
Definition declaredBackends (text : string) : list string :=
  map headerName (filter (fun l => isHeader l = true) (lines text)).

(** The backends the frontend section routes to, in order. *)
Definition usedBackends (text : string) : list string :=
  map useBackendTarget
    (filter (fun l => isUseBackend l = true) (lines text)).

(** *** Inputs that print one item per line *)

Definition serviceOnLines (s : Service) : bool :=
  singleLine (name s) && forallb singleLine (children s).

Definition propertyOnLines (p : Property) : bool :=
  singleLine (key p) && singleLine (name (value p)).

(** Service names that are tokens of the target grammar. *)
Definition namesAreTokens (o : JSObject) : bool :=
  forallb (fun p => token (name (value p))) (ownProperties o).

(** The three parts of a configuration document, put together. *)
Definition assemble (preamble frontend backend : string) : string :=
  preamble +:+ frontend +:+ newline +:+ backend.

End Layout.
Import Layout.

(** ** The proxy service an entry point returns *)

(** [n] replicas of the proxy container, each holding the one file
    [config] at [configPath]. *)
Definition hapService (n : nat) (config : string) : ProxyService :=
  mkProxyService "haproxy"
    (replicate n
       (mkContainer image
          ["haproxy-systemd-wrapper"; "-p"; "/run/haproxy.pid"; "-f";
           configPath]
          {[ configPath := config ]})).

(** The grants [createHapService] makes for [services]. *)
Definition grants (services : list Service) : list Connection :=
  map (fun s => mkConnection (name s) "haproxy" internalPort) services.

Definition grant (w : World) (cs : list Connection) : World :=
  mkWorld (dirname w) (disk w) (allowed w ++ cs).

(** The template the program reads in world [w]. *)
Definition template (w : World) : option string :=
  disk w !! pathJoin (dirname w) "haproxy.cfg".

(** What a run hands back to its caller, if it does not throw. *)
Definition returned {A} (r : Result A) : option A :=
  match r with
  | Ok a _ => Some a
  | Throw _ => None
  end.

(** The configuration document a run delivers: the file at
    [configPath] in the first replica of the proxy service returned. *)
Definition delivered (r : Result ProxyService) : option string :=
  match r with
  | Ok h _ =>
      match containers h with
      | c :: _ => filepathToContent c !! configPath
      | [] => None
      end
  | Throw _ => None
  end.

(** ** Further readers and combinators *)

Module Reading.

(** The name a server line declares: its first word after the
    keyword. *)
Definition serverName (l : string) : string := firstWord (dropChars 11 l).

(** The server names of a backend block, in order. *)
Definition serverNames (block : list string) : list string :=
  map serverName (filter (fun l => isServer l = true) block).

(** Texts put one after the other. *)
Definition joined (ts : list string) : string := foldr String.append "" ts.

(** The text [createBackendConfigs] adds for the [i]-th address [a] of
    the service called [n]. *)
Definition serverText (n : string) (i : nat) (a : string) : string :=
  newline +:+ "    server " +:+ n +:+ "-" +:+ decimal i +:+ " " +:+ a +:+
  ":80 check resolvers dns cookie " +:+ n +:+ "-" +:+ decimal i.

(** The grant [createHapService] makes for one service. *)
Definition grantFor (s : Service) : Connection :=
  mkConnection (name s) "haproxy" 80.

(** Whether the call [domainToService.hasOwnProperty(domain)] reaches
    the method of [Object.prototype]: the map inherits from it and no
    property the loop visits is keyed [hasOwnProperty]. *)
Definition callable (o : JSObject) : bool :=
  match getHasOwnProperty o with
  | FoundBuiltin => true
  | FoundService _ | FoundUndefined => false
  end.

(** Whether the two [for ... in] loops run to their end: nothing is
    called when nothing is visited. *)
Definition walkable (o : JSObject) : bool :=
  match visited o with
  | [] => true
  | _ :: _ => callable o
  end.

(** The text of the rules of a routing map: the host-match lines, then
    the use-backend lines. *)
Definition routingText (o : JSObject) : string :=
  prefixed (aclLines o ++ useBackendLines o).

(** A routing map reduced to its own properties. *)
Definition ownOnly (o : JSObject) : JSObject :=
  mkObject (ownProperties o) (inheritsObject o).

(** The error of calling what is not a function. *)
Definition notAFunction : Error :=
  TypeError "domainToService.hasOwnProperty is not a function".

End Reading.
Import Reading.

(** ** Sample inputs *)

Definition web : Service := mkService "web" ["10.0.0.1"; "10.0.0.2"].
Definition db : Service := mkService "db" [].
Definition svcA : Service := mkService "svcA" ["1.svcA.q"].
Definition svcB : Service := mkService "svcB" ["1.svcB.q"; "2.svcB.q"].

(** One service behind two domains. *)
Definition sharedMap : JSObject :=
  literal [("a.com", svcA); ("b.com", svcA)].

(** A routing map with one own key and one key that comes from the
    prototype chain. *)
Definition inheritingMap : JSObject :=
  mkObject
    [mkProperty "a.com" true svcA; mkProperty "legacy.com" false svcB] true.

(** A routing map with a domain key that hides the method. *)
Definition shadowingMap : JSObject := literal [("hasOwnProperty", svcA)].


(** A preamble template with the port placeholder. *)
Definition sampleTemplate : string := "frontend http-in
    bind *:{{port}}".

(** A world in which the module sits in [/app], next to its template. *)
Definition sampleWorld : World :=
  mkWorld "/app" {[ "/app/haproxy.cfg" := sampleTemplate ]} [].

(** A world in which the template is missing. *)
Definition emptyDisk : World := mkWorld "/app" ∅ [].

(** ** Facts about text *)

Module TextFacts.

Lemma append_empty_r (s : string) : s +:+ "" = s.
Proof. induction s as [|c s IH]; simpl; [reflexivity | now rewrite IH]. Qed.

Lemma append_assoc (a b c : string) : (a +:+ b) +:+ c = a +:+ (b +:+ c).
Proof. induction a as [|x a IH]; simpl; [reflexivity | now rewrite IH]. Qed.

Lemma lines_not_nil (s : string) : lines s <> [].
Proof.
  induction s as [|c s IH]; simpl; [discriminate|].
  destruct (Ascii.eqb c LF); [discriminate|].
  destruct (lines s); discriminate.
Qed.

(** A text without line feed in front of [x] joins the first line of
    [x]. *)
Lemma lines_app_single (l x : string) :
  singleLine l = true ->
  lines (l +:+ x) =
    match lines x with
    | h :: t => (l +:+ h) :: t
    | [] => [l]
    end.
Proof.
  unfold singleLine.
  induction l as [|c l IH]; simpl; intros H.
  - destruct (lines x) eqn:E; [now apply lines_not_nil in E | reflexivity].
  - apply andb_true_iff in H as [Hc Hl].
    apply negb_true_iff in Hc. rewrite Hc, (IH Hl).
    destruct (lines x); reflexivity.
Qed.

Lemma lines_newline (x : string) : lines (newline +:+ x) = "" :: lines x.
Proof. reflexivity. Qed.

Lemma singleLine_app (a b : string) :
  singleLine (a +:+ b) = singleLine a && singleLine b.
Proof.
  unfold singleLine. induction a as [|c a IH]; simpl; [reflexivity|].
  now rewrite IH, andb_assoc.
Qed.

Lemma firstWord_app (w r : string) :
  lacks " "%char w = true -> firstWord (w +:+ String " "%char r) = w.
Proof.
  induction w as [|c w IH]; simpl; intros H; [reflexivity|].
  apply andb_true_iff in H as [Hc Hw].
  apply negb_true_iff in Hc. now rewrite Hc, (IH Hw).
Qed.

Lemma token_lacks_space (s : string) :
  token s = true -> lacks " "%char s = true.
Proof. unfold token. intros H. now apply andb_true_iff in H as [_ H]. Qed.

Lemma decimal_singleLine (n : nat) : singleLine (decimal n) = true.
Proof.
  unfold decimal. generalize (Nat.to_uint n) as d.
  induction d; simpl; auto.
Qed.

(** *** Paragraphs *)

Lemma paragraphsFrom_run (cur run rest : list string) :
  forallb nonEmpty run = true ->
  paragraphsFrom cur (run ++ "" :: rest) =
    flush (cur ++ run) ++ paragraphsFrom [] rest.
Proof.
  revert cur. induction run as [|l run IH]; intros cur H; simpl.
  - now rewrite app_nil_r.
  - simpl in H. apply andb_true_iff in H as [Hl Hrun].
    unfold nonEmpty in Hl. apply negb_true_iff in Hl. rewrite Hl.
    rewrite (IH _ Hrun). now rewrite <- app_assoc.
Qed.

End TextFacts.

(** ** The templates, filled in *)

Module FormatFacts.
Import TextFacts.

Lemma format_backendPattern (n b : string) :
  format backendPattern [AStr n; AStr b] =
    prefixed [headerLine n; balanceLine b; cookieLine].
Proof. reflexivity. Qed.

Lemma format_serverName (n : string) (i : nat) :
  format "%s-%d" [AStr n; ANum i] = n +:+ "-" +:+ decimal i.
Proof. cbn. now rewrite append_empty_r. Qed.

Lemma format_serverPattern (i a c : string) (p : nat) :
  format serverPattern [AStr i; AStr a; ANum p; AStr c] =
    prefixed [serverLine (mkServerEntry i a p c)].
Proof. cbn. now rewrite !append_empty_r. Qed.

Lemma format_defaultBackendPattern (n : string) :
  format defaultBackendPattern [AStr n] = prefixed [defaultBackendLine n].
Proof. cbn. now rewrite !append_empty_r. Qed.

Lemma format_aclPattern (m d : string) :
  format aclPattern [AStr m; AStr d] =
    prefixed [aclLine (mkFrontendRule m d "")].
Proof. cbn. now rewrite !append_empty_r. Qed.

Lemma format_useBackendPattern (n m : string) :
  format useBackendPattern [AStr n; AStr m] =
    prefixed [useBackendLine (mkFrontendRule m "" n)].
Proof. cbn. now rewrite !append_empty_r. Qed.

Lemma prefixed_app (a b : list string) :
  prefixed (a ++ b) = prefixed a +:+ prefixed b.
Proof.
  induction a as [|l a IH]; [reflexivity|].
  cbn [prefixed app]. rewrite IH. now rewrite !append_assoc.
Qed.

(** The lines of a text printed with [prefixed], when each item fits
    on a line: an empty first piece, then the items. *)
Lemma lines_prefixed_newline (ls : list string) (r : string) :
  forallb singleLine ls = true ->
  lines (prefixed ls +:+ newline +:+ r) = "" :: ls ++ lines r.
Proof.
  induction ls as [|l ls IH]; intros H; [reflexivity|].
  cbn [forallb] in H. apply andb_true_iff in H as [Hl Hls].
  cbn [prefixed]. rewrite !append_assoc, lines_newline.
  rewrite (lines_app_single _ _ Hl), (IH Hls).
  now rewrite append_empty_r.
Qed.

Lemma lines_prefixed (ls : list string) :
  forallb singleLine ls = true -> lines (prefixed ls) = "" :: ls.
Proof.
  induction ls as [|l ls IH]; intros H; [reflexivity|].
  cbn [forallb] in H. apply andb_true_iff in H as [Hl Hls].
  cbn [prefixed]. rewrite lines_newline.
  rewrite (lines_app_single _ _ Hl), (IH Hls).
  now rewrite append_empty_r.
Qed.

End FormatFacts.

(** ** The backend generator, block by block *)

Module BackendFacts.
Import TextFacts FormatFacts.

Lemma index_app_middle (pre suf : list string) (a : string) :
  index (pre ++ a :: suf) (length pre) = AStr a.
Proof.
  unfold index. now rewrite list_lookup_middle.
Qed.

(** The [for] loop, started at index [length pre] on the addresses
    still to print. *)
Lemma serverLoop (name : string) (pre suf : list string) (config : string) :
  foldl (serverStep name (pre ++ suf)) config
    (seq (length pre) (length suf)) =
  config +:+
  prefixed (map serverLine
              (imap (fun i => serverEntry name (length pre + i)) suf)).
Proof.
  revert pre config. induction suf as [|a suf IH]; intros pre config.
  - cbn. now rewrite append_empty_r.
  - cbn [length seq foldl]. unfold serverStep at 2.
    rewrite format_serverName, index_app_middle, format_serverPattern.
    replace (pre ++ a :: suf) with ((pre ++ [a]) ++ suf)
      by now rewrite <- app_assoc.
    replace (S (length pre)) with (length (pre ++ [a]))
      by (rewrite length_app; cbn; lia).
    rewrite IH, append_assoc. f_equal.
    rewrite <- prefixed_app, imap_cons. cbn [map app].
    rewrite Nat.add_0_r. f_equal. f_equal. f_equal.
    apply imap_ext. intros i x _. cbn.
    rewrite length_app. cbn. f_equal. lia.
Qed.

Lemma backendStep_text (balance config : string) (s : Service) :
  backendStep balance config s = config +:+ blockText balance s.
Proof.
  unfold backendStep, blockText, backendName.
  pose proof (serverLoop (name s) [] (children s)) as L.
  cbn [app length] in L. rewrite L, format_backendPattern.
  rewrite !append_assoc. f_equal.
  unfold blockLines, descriptor; cbn [backend balanceAlgorithm servers].
  rewrite <- append_assoc, <- prefixed_app. reflexivity.
Qed.

Lemma foldl_backendStep (balance config : string) (l : list Service) :
  foldl (backendStep balance) config l =
    config +:+ blocksText balance l.
Proof.
  revert config. induction l as [|s l IH]; intros config; cbn.
  - now rewrite append_empty_r.
  - now rewrite IH, backendStep_text, append_assoc.
Qed.

(** The text of the backend section is the blocks one after the
    other. *)
Lemma createBackendConfigs_text (services : ServiceOrArray)
    (balance : string) :
  createBackendConfigs services balance =
    blocksText balance (toArray services).
Proof. unfold createBackendConfigs. now rewrite foldl_backendStep. Qed.

(** *** Line by line *)

Lemma serverLine_singleLine (n a : string) (i : nat) :
  singleLine n = true -> singleLine a = true ->
  singleLine (serverLine (serverEntry n i a)) = true.
Proof.
  intros Hn Ha. unfold serverLine, serverEntry; cbn [id address port cookie].
  rewrite !singleLine_app, Hn, Ha, !decimal_singleLine. reflexivity.
Qed.

Lemma serverLines_singleLine (n : string) (l : list string)
    (f : nat -> nat) :
  singleLine n = true -> forallb singleLine l = true ->
  forallb singleLine
    (map serverLine (imap (fun i => serverEntry n (f i)) l)) = true.
Proof.
  intros Hn. revert f. induction l as [|a l IH]; intros f Hl;
    [reflexivity|].
  cbn [forallb] in Hl. apply andb_true_iff in Hl as [Ha Hl].
  rewrite imap_cons. cbn [map forallb].
  rewrite (serverLine_singleLine n a (f 0) Hn Ha).
  apply (IH (fun i => f (S i)) Hl).
Qed.

Lemma blockLines_singleLine (balance : string) (s : Service) :
  singleLine balance = true -> serviceOnLines s = true ->
  forallb singleLine (blockLines (descriptor balance s)) = true.
Proof.
  intros Hb Hs. unfold serviceOnLines in Hs.
  apply andb_true_iff in Hs as [Hn Hc].
  unfold blockLines, descriptor; cbn [backend balanceAlgorithm servers].
  cbn [forallb]. unfold headerLine, balanceLine.
  rewrite !singleLine_app, Hn, Hb.
  assert (forallb singleLine
            (map serverLine (imap (serverEntry (name s)) (children s)))
          = true) as ->
    by exact (serverLines_singleLine _ _ (fun i => i) Hn Hc).
  reflexivity.
Qed.

Lemma serverLines_nonEmpty (es : list ServerEntry) :
  forallb nonEmpty (map serverLine es) = true.
Proof. induction es as [|e es IH]; [reflexivity | exact IH]. Qed.

Lemma blockLines_nonEmpty (d : BackendDescriptor) :
  forallb nonEmpty (blockLines d) = true.
Proof. apply serverLines_nonEmpty. Qed.

Lemma serverLines_not_header (es : list ServerEntry) :
  filter (fun l => isHeader l = true) (map serverLine es) = [].
Proof.
  induction es as [|e es IH]; [reflexivity|].
  cbn [map]. rewrite filter_cons_False; [exact IH | discriminate].
Qed.

Lemma lines_blocksText (balance : string) (l : list Service) :
  singleLine balance = true -> forallb serviceOnLines l = true ->
  lines (blocksText balance l) = sectionLines balance l.
Proof.
  intros Hb. unfold sectionLines.
  induction l as [|s l IH]; intros Hl; [reflexivity|].
  cbn [forallb] in Hl. apply andb_true_iff in Hl as [Hs Hl].
  cbn [blocksText flat_map]. unfold blockText.
  rewrite append_assoc.
  rewrite (lines_prefixed_newline _ _ (blockLines_singleLine _ _ Hb Hs)).
  rewrite (IH Hl). now rewrite <- app_assoc.
Qed.

Lemma paragraphs_sectionLines (balance : string) (l : list Service) :
  paragraphs (sectionLines balance l) =
    map (fun s => blockLines (descriptor balance s)) l.
Proof.
  unfold paragraphs, sectionLines. cbn [paragraphsFrom String.eqb flush app].
  induction l as [|s l IH]; [reflexivity|].
  cbn [flat_map map]. rewrite <- app_assoc. cbn [app].
  rewrite (paragraphsFrom_run _ _ _ (blockLines_nonEmpty _)), IH.
  reflexivity.
Qed.

Lemma filter_startsBlock (balance : string) (l : list Service) :
  filter (fun p => startsBlock p = true)
    (map (fun s => blockLines (descriptor balance s)) l) =
  map (fun s => blockLines (descriptor balance s)) l.
Proof.
  induction l as [|s l IH]; [reflexivity|].
  cbn [map]. rewrite filter_cons_True; [now rewrite IH | reflexivity].
Qed.

Lemma headers_sectionLines (balance : string) (l : list Service) :
  filter (fun x => isHeader x = true) (sectionLines balance l) =
    map (fun s => headerLine (name s)) l.
Proof.
  unfold sectionLines. rewrite filter_cons_False by discriminate.
  induction l as [|s l IH]; [reflexivity|].
  cbn [flat_map map]. rewrite filter_app, IH.
  enough (filter (fun x => isHeader x = true)
            (blockLines (descriptor balance s) ++ [""]) =
          [headerLine (name s)]) as -> by reflexivity.
  unfold blockLines, descriptor; cbn [backend balanceAlgorithm servers app].
  rewrite filter_cons_True by reflexivity.
  rewrite filter_cons_False by discriminate.
  rewrite filter_cons_False by discriminate.
  rewrite filter_app, serverLines_not_header.
  rewrite filter_cons_False by discriminate. reflexivity.
Qed.

Lemma declaredBackends_createBackendConfigs (balance : string)
    (l : list Service) :
  singleLine balance = true -> forallb serviceOnLines l = true ->
  declaredBackends (createBackendConfigs (Many l) balance) = map name l.
Proof.
  intros Hb Hl. unfold declaredBackends.
  rewrite createBackendConfigs_text. cbn [toArray].
  rewrite (lines_blocksText _ _ Hb Hl), headers_sectionLines.
  rewrite map_map. reflexivity.
Qed.

Lemma backendBlocks_createBackendConfigs (balance : string)
    (l : list Service) :
  singleLine balance = true -> forallb serviceOnLines l = true ->
  backendBlocks (createBackendConfigs (Many l) balance) =
    map (fun s => blockLines (descriptor balance s)) l.
Proof.
  intros Hb Hl. unfold backendBlocks.
  rewrite createBackendConfigs_text. cbn [toArray].
  rewrite (lines_blocksText _ _ Hb Hl), paragraphs_sectionLines.
  apply filter_startsBlock.
Qed.

Lemma blocksText_app (balance : string) (a b : list Service) :
  blocksText balance (a ++ b) =
    blocksText balance a +:+ blocksText balance b.
Proof.
  induction a as [|s a IH]; [reflexivity|].
  cbn [app blocksText]. now rewrite IH, append_assoc.
Qed.

End BackendFacts.

(** ** The frontend generator, rule by rule *)

Module FrontendFacts.
Import TextFacts FormatFacts.

Lemma filter_own_cons (p : Property) (ps : list Property) :
  filter own (p :: ps) = if own p then p :: filter own ps else filter own ps.
Proof.
  destruct (own p) eqn:E.
  - rewrite filter_cons_True; [reflexivity | now rewrite E].
  - rewrite filter_cons_False; [reflexivity | now rewrite E].
Qed.

Lemma hasOwnProperty_callable (o : JSObject) (p : Property) (w : World) :
  callable o = true -> hasOwnProperty o p w = Ok (own p) w.
Proof.
  unfold callable, hasOwnProperty.
  destruct (getHasOwnProperty o); [discriminate | reflexivity | discriminate].
Qed.

Lemma hasOwnProperty_throws (o : JSObject) (p : Property) (w : World) :
  callable o = false -> hasOwnProperty o p w = Throw notAFunction.
Proof.
  unfold callable, hasOwnProperty.
  destruct (getHasOwnProperty o); [reflexivity | discriminate | reflexivity].
Qed.

(** The loop of [urlRoutingConfig] over properties [ps], when the
    method can be called. *)
Lemma forIn_routingStep (o : JSObject) (ps : list Property)
    (acls rules : string) (w : World) :
  callable o = true ->
  forIn ps (routingStep o) (acls, rules) w =
    Ok (acls +:+ prefixed (map (fun p => aclLine (rule p)) (filter own ps)),
        rules +:+
        prefixed (map (fun p => useBackendLine (rule p)) (filter own ps)))
       w.
Proof.
  intros C. revert acls rules. induction ps as [|p ps IH]; intros acls rules.
  - cbn. now rewrite !append_empty_r.
  - cbn [forIn]. unfold mbind, M_bind, bind.
    unfold routingStep at 1. unfold mbind, M_bind, bind.
    rewrite (hasOwnProperty_callable o p w C), filter_own_cons.
    destruct (own p); cbn [negb].
    + unfold mret, M_ret, ret.
      rewrite IH, format_aclPattern, format_useBackendPattern.
      unfold backendName. cbn [map]. rewrite !append_assoc.
      f_equal. f_equal; f_equal; cbn [prefixed]; rewrite !append_assoc;
        now rewrite ?append_empty_r.
    + unfold mret, M_ret, ret. apply IH.
Qed.

(** The loop of [withURLrouting] over properties [ps], when the method
    can be called. *)
Lemma forIn_collectStep (o : JSObject) (ps : list Property)
    (acc : list Service) (w : World) :
  callable o = true ->
  forIn ps (collectStep o) acc w = Ok (acc ++ map value (filter own ps)) w.
Proof.
  intros C. revert acc. induction ps as [|p ps IH]; intros acc.
  - cbn. now rewrite app_nil_r.
  - cbn [forIn]. unfold mbind, M_bind, bind.
    unfold collectStep at 1. unfold mbind, M_bind, bind.
    rewrite (hasOwnProperty_callable o p w C), filter_own_cons.
    destruct (own p); unfold mret, M_ret, ret; rewrite IH;
      [now rewrite <- app_assoc | reflexivity].
Qed.

Lemma walkable_cases (o : JSObject) :
  walkable o = true -> visited o = [] \/ callable o = true.
Proof.
  unfold walkable. destruct (visited o); [now left | now right].
Qed.

Lemma not_walkable (o : JSObject) :
  walkable o = false ->
  exists p ps, visited o = p :: ps /\ callable o = false.
Proof.
  unfold walkable. destruct (visited o) as [|p ps]; [discriminate|].
  intros H. now exists p, ps.
Qed.

Lemma urlRoutingConfig_Ok (o : JSObject) (w : World) :
  walkable o = true -> urlRoutingConfig o w = Ok (routingText o) w.
Proof.
  intros H. unfold urlRoutingConfig, routingText, aclLines, useBackendLines,
    ownProperties.
  unfold mbind, M_bind, bind.
  destruct (walkable_cases o H) as [E|C].
  - rewrite E. reflexivity.
  - rewrite (forIn_routingStep o _ _ _ w C).
    unfold mret, M_ret, ret. now rewrite prefixed_app.
Qed.

Lemma urlRoutingConfig_Throw (o : JSObject) (w : World) :
  walkable o = false -> urlRoutingConfig o w = Throw notAFunction.
Proof.
  intros H. destruct (not_walkable o H) as (p & ps & E & C).
  unfold urlRoutingConfig. unfold mbind, M_bind, bind.
  rewrite E. cbn [forIn]. unfold mbind, M_bind, bind.
  unfold routingStep at 1. unfold mbind, M_bind, bind.
  now rewrite (hasOwnProperty_throws o p w C).
Qed.

Lemma collect_Ok (o : JSObject) (w : World) :
  walkable o = true ->
  forIn (visited o) (collectStep o) [] w = Ok (referenced o) w.
Proof.
  intros H. unfold referenced, ownProperties.
  destruct (walkable_cases o H) as [E|C].
  - rewrite E. reflexivity.
  - now rewrite (forIn_collectStep o _ _ w C).
Qed.

Lemma collect_Throw (o : JSObject) (w : World) :
  walkable o = false ->
  forIn (visited o) (collectStep o) [] w = Throw notAFunction.
Proof.
  intros H. destruct (not_walkable o H) as (p & ps & E & C).
  rewrite E. cbn [forIn]. unfold mbind, M_bind, bind.
  unfold collectStep at 1. unfold mbind, M_bind, bind.
  now rewrite (hasOwnProperty_throws o p w C).
Qed.

(** What a normal return of [urlRoutingConfig] tells. *)
Lemma urlRoutingConfig_inv (o : JSObject) (w w' : World) (text : string) :
  urlRoutingConfig o w = Ok text w' ->
  walkable o = true /\ text = routingText o /\ w' = w.
Proof.
  intros H. destruct (walkable o) eqn:E.
  - rewrite (urlRoutingConfig_Ok o w E) in H. now injection H as <- <-.
  - now rewrite (urlRoutingConfig_Throw o w E) in H.
Qed.

Lemma ruleLines_singleLine (o : JSObject) :
  forallb propertyOnLines (ownProperties o) = true ->
  forallb singleLine (aclLines o ++ useBackendLines o) = true.
Proof.
  unfold aclLines, useBackendLines. intros H.
  rewrite forallb_app.
  induction (ownProperties o) as [|p l IH]; [reflexivity|].
  cbn [forallb] in H. apply andb_true_iff in H as [Hp Hl].
  unfold propertyOnLines in Hp. apply andb_true_iff in Hp as [Hk Hn].
  specialize (IH Hl). apply andb_true_iff in IH as [IH1 IH2].
  cbn [map forallb]. rewrite IH1, IH2.
  unfold aclLine, useBackendLine, rule; cbn [matchId domain target].
  rewrite !singleLine_app, Hk, Hn. reflexivity.
Qed.

Lemma filter_useBackend_acl (l : list Property) :
  filter (fun x => isUseBackend x = true)
    (map (fun p => aclLine (rule p)) l) = [].
Proof.
  induction l as [|p l IH]; [reflexivity|].
  cbn [map]. rewrite filter_cons_False; [exact IH | discriminate].
Qed.

Lemma filter_useBackend_use (l : list Property) :
  filter (fun x => isUseBackend x = true)
    (map (fun p => useBackendLine (rule p)) l) =
  map (fun p => useBackendLine (rule p)) l.
Proof.
  induction l as [|p l IH]; [reflexivity|].
  cbn [map]. rewrite filter_cons_True; [now rewrite IH | reflexivity].
Qed.

Lemma useBackendTarget_line (p : Property) :
  token (name (value p)) = true ->
  useBackendTarget (useBackendLine (rule p)) = name (value p).
Proof.
  intros H. unfold useBackendTarget, useBackendLine, rule;
    cbn [matchId domain target].
  cbn [dropChars String.append].
  apply firstWord_app. now apply token_lacks_space.
Qed.

Lemma lines_routingText (o : JSObject) :
  forallb propertyOnLines (ownProperties o) = true ->
  lines (routingText o) = "" :: aclLines o ++ useBackendLines o.
Proof.
  intros H. unfold routingText.
  apply lines_prefixed, ruleLines_singleLine, H.
Qed.

Lemma usedBackends_routingText (o : JSObject) :
  forallb propertyOnLines (ownProperties o) = true ->
  namesAreTokens o = true ->
  usedBackends (routingText o) = map name (referenced o).
Proof.
  intros H T. unfold usedBackends.
  rewrite (lines_routingText o H).
  rewrite filter_cons_False by discriminate.
  unfold aclLines, useBackendLines.
  rewrite filter_app, filter_useBackend_acl, filter_useBackend_use.
  cbn [app]. unfold referenced, namesAreTokens in *.
  induction (ownProperties o) as [|p l IH]; [reflexivity|].
  cbn [forallb] in H, T.
  apply andb_true_iff in H as [_ H]. apply andb_true_iff in T as [Tp T].
  cbn [map]. now rewrite (useBackendTarget_line p Tp), (IH H T).
Qed.

End FrontendFacts.

(** ** Running the entry points *)

Module RunFacts.
Import TextFacts FormatFacts BackendFacts FrontendFacts.

Lemma grant_nil (w : World) : grant w [] = w.
Proof. destruct w. unfold grant. cbn. now rewrite app_nil_r. Qed.

Lemma grant_grant (w : World) (a b : list Connection) :
  grant (grant w a) b = grant w (a ++ b).
Proof. unfold grant. cbn. now rewrite app_assoc. Qed.

Lemma template_grant (w : World) (cs : list Connection) :
  template (grant w cs) = template w.
Proof. reflexivity. Qed.

Lemma forEach_allowFrom (l : list Service) (src : string) (port : nat)
    (w : World) :
  forEach l (fun s => allowFrom s src port) w =
    Ok tt (grant w (map (fun s => mkConnection (name s) src port) l)).
Proof.
  revert w. induction l as [|s l IH]; intros w.
  - cbn. now rewrite grant_nil.
  - cbn [forEach map]. unfold mbind, M_bind, bind.
    unfold allowFrom at 1. fold (grant w [mkConnection (name s) src port]).
    rewrite IH, grant_grant. reflexivity.
Qed.

Lemma createConfigFiles_Ok (frontend backend templ : string) (w : World) :
  template w = Some templ ->
  createConfigFiles frontend backend w =
    Ok {[ configPath := assemble (render templ exposedPort) frontend backend ]}
       w.
Proof.
  unfold template, createConfigFiles. intros H.
  unfold mbind, M_bind, bind, getDirname, readFileSync. rewrite H.
  unfold mret, M_ret, ret, assemble. now rewrite insert_empty.
Qed.

Lemma createConfigFiles_Throw (frontend backend : string) (w : World) :
  template w = None ->
  createConfigFiles frontend backend w =
    Throw (ENOENT (pathJoin (dirname w) "haproxy.cfg")).
Proof.
  unfold template, createConfigFiles. intros H.
  unfold mbind, M_bind, bind, getDirname, readFileSync. now rewrite H.
Qed.

Lemma createHapService_Ok (n : nat) (services : ServiceOrArray)
    (config : string) (w : World) :
  createHapService n services {[ configPath := config ]} w =
    Ok (hapService n config) (grant w (grants (toArray services))).
Proof.
  unfold createHapService. unfold mbind, M_bind, bind.
  cbn [serviceName]. rewrite forEach_allowFrom. reflexivity.
Qed.

Lemma singleServiceLoadBalancer_Ok (n : nat) (service : Service)
    (balance : option string) (templ : string) (w : World) :
  template w = Some templ ->
  singleServiceLoadBalancer n service balance w =
    Ok (hapService n
          (assemble (render templ exposedPort)
             (format defaultBackendPattern [AStr (backendName service)])
             (createBackendConfigs (One service)
                (default "roundrobin" balance))))
       (grant w (grants [service])).
Proof.
  intros H. unfold singleServiceLoadBalancer.
  unfold mbind, M_bind, bind.
  rewrite (createConfigFiles_Ok _ _ _ _ H).
  apply createHapService_Ok.
Qed.

Lemma singleServiceLoadBalancer_Throw (n : nat) (service : Service)
    (balance : option string) (w : World) :
  template w = None ->
  singleServiceLoadBalancer n service balance w =
    Throw (ENOENT (pathJoin (dirname w) "haproxy.cfg")).
Proof.
  intros H. unfold singleServiceLoadBalancer. unfold mbind, M_bind, bind.
  now rewrite (createConfigFiles_Throw _ _ _ H).
Qed.

Lemma withURLrouting_Ok (n : nat) (o : JSObject)
    (balance : option string) (templ : string) (w : World) :
  walkable o = true ->
  template w = Some templ ->
  withURLrouting n o balance w =
    Ok (hapService n
          (assemble (render templ exposedPort)
             (routingText o)
             (createBackendConfigs (Many (referenced o))
                (default "roundrobin" balance))))
       (grant w (grants (referenced o))).
Proof.
  intros W H. unfold withURLrouting.
  unfold mbind, M_bind, bind.
  rewrite (collect_Ok o w W), (urlRoutingConfig_Ok o w W).
  rewrite (createConfigFiles_Ok _ _ _ _ H).
  apply createHapService_Ok.
Qed.

Lemma withURLrouting_TypeError (n : nat) (o : JSObject)
    (balance : option string) (w : World) :
  walkable o = false ->
  withURLrouting n o balance w = Throw notAFunction.
Proof.
  intros W. unfold withURLrouting. unfold mbind, M_bind, bind.
  now rewrite (collect_Throw o w W).
Qed.

Lemma withURLrouting_ENOENT (n : nat) (o : JSObject)
    (balance : option string) (w : World) :
  walkable o = true ->
  template w = None ->
  withURLrouting n o balance w =
    Throw (ENOENT (pathJoin (dirname w) "haproxy.cfg")).
Proof.
  intros W H. unfold withURLrouting. unfold mbind, M_bind, bind.
  rewrite (collect_Ok o w W), (urlRoutingConfig_Ok o w W).
  now rewrite (createConfigFiles_Throw _ _ _ H).
Qed.

(** What a normal return of [withURLrouting] tells. *)
Lemma withURLrouting_inv (n : nat) (o : JSObject) (balance : option string)
    (w w' : World) (h : ProxyService) :
  withURLrouting n o balance w = Ok h w' ->
  walkable o = true /\
  exists templ,
    template w = Some templ /\
    h = hapService n
          (assemble (render templ exposedPort) (routingText o)
             (createBackendConfigs (Many (referenced o))
                (default "roundrobin" balance))) /\
    w' = grant w (grants (referenced o)).
Proof.
  intros H. destruct (walkable o) eqn:W.
  - split; [reflexivity|]. destruct (template w) as [templ|] eqn:T.
    + rewrite (withURLrouting_Ok n o balance templ w W T) in H.
      injection H as <- <-. now exists templ.
    + now rewrite (withURLrouting_ENOENT n o balance w W T) in H.
  - now rewrite (withURLrouting_TypeError n o balance w W) in H.
Qed.

(** The rendering of a template that holds the placeholder once. *)
Lemma renderFrom_plain (fuel : nat) (s : string) (port : nat) :
  lacks "{"%char s = true -> String.length s < fuel ->
  renderFrom fuel s port = s.
Proof.
  revert s. induction fuel as [|fuel IH]; intros s H L; [lia|].
  destruct s as [|c s]; [reflexivity|].
  cbn [lacks] in H. apply andb_true_iff in H as [Hc Hs].
  apply negb_true_iff in Hc. cbn [String.length] in L.
  cbn [renderFrom startsWith]. rewrite Ascii.eqb_sym, Hc. cbn [andb].
  rewrite IH; [reflexivity | assumption | lia].
Qed.

Lemma renderFrom_placeholder (fuel : nat) (pre post : string) (port : nat) :
  lacks "{"%char pre = true -> lacks "{"%char post = true ->
  String.length pre + String.length post + 1 < fuel ->
  renderFrom fuel (pre +:+ "{{port}}" +:+ post) port =
    pre +:+ decimal port +:+ post.
Proof.
  revert pre. induction fuel as [|fuel IH]; intros pre Hpre Hpost L; [lia|].
  destruct pre as [|c pre].
  - cbn [String.append renderFrom startsWith dropChars]. cbn.
    rewrite renderFrom_plain; [reflexivity | assumption |].
    cbn [String.length] in L. lia.
  - cbn [lacks] in Hpre. apply andb_true_iff in Hpre as [Hc Hpre].
    apply negb_true_iff in Hc. cbn [String.length] in L.
    cbn [String.append renderFrom startsWith].
    rewrite Ascii.eqb_sym, Hc. cbn [andb].
    rewrite IH; [reflexivity | assumption | assumption | lia].
Qed.

Lemma length_append (a b : string) :
  String.length (a +:+ b) = String.length a + String.length b.
Proof. induction a as [|c a IH]; cbn; [reflexivity | now rewrite IH]. Qed.

Lemma render_placeholder (pre post : string) (port : nat) :
  lacks "{"%char pre = true -> lacks "{"%char post = true ->
  render (pre +:+ "{{port}}" +:+ post) port = pre +:+ decimal port +:+ post.
Proof.
  intros Hpre Hpost. unfold render.
  apply renderFrom_placeholder; [assumption | assumption |].
  rewrite !length_append. cbn [String.length]. lia.
Qed.

Lemma delivered_hapService (n : nat) (config : string) (w : World) :
  delivered (Ok (hapService (S n) config) w) = Some config.
Proof.
  unfold delivered, hapService.
  cbn [containers replicate filepathToContent].
  apply lookup_singleton_eq.
Qed.

End RunFacts.

(** ** Worked examples *)

Example web_backend :
  createBackendConfigs (One web) "roundrobin" = "
backend web
    balance roundrobin
    cookie SERVERID insert indirect nocache
    server web-0 10.0.0.1:80 check resolvers dns cookie web-0
    server web-1 10.0.0.2:80 check resolvers dns cookie web-1
".
Proof. reflexivity. Qed.

Example two_domains :
  urlRoutingConfig (literal [("a.com", svcA); ("b.com", svcB)]) sampleWorld =
  Ok "
    acl svcA_req hdr(host) -i a.com
    acl svcB_req hdr(host) -i b.com
    use_backend svcA if svcA_req
    use_backend svcB if svcB_req" sampleWorld.
Proof. reflexivity. Qed.

Example key_named_hasOwnProperty :
  withURLrouting 1 shadowingMap None sampleWorld =
  Throw (TypeError "domainToService.hasOwnProperty is not a function").
Proof. reflexivity. Qed.

Example render_port :
  render "frontend http-in
    bind *:{{port}}
" 80 = "frontend http-in
    bind *:80
".
Proof. reflexivity. Qed.


(** ** Properties of the generated configuration *)

Import TextFacts FormatFacts BackendFacts FrontendFacts RunFacts.

(** C2. Backend generator: for every list of services (non-empty or
    not) and every balance token [b], when the token, the service names
    and the endpoint addresses each fit on one line, the backend section
    [createBackendConfigs] prints has exactly one backend block per
    service, in input order.  The block of service [s] is its header
    line, the balance line carrying [b], the fixed cookie-affinity line,
    and then one server line per endpoint of [children s], in snapshot
    order: the [i]-th (from 0) has id [name s-i], the [i]-th address,
    port 80, and the id again as cookie value. *)
Theorem createBackendConfigs_one_block_per_service
    (services : list Service) (b : string) :
  singleLine b = true ->
  forallb serviceOnLines services = true ->
  backendBlocks (createBackendConfigs (Many services) b) =
    map (fun s => blockLines (descriptor b s)) services /\
  forall k s, services !! k = Some s ->
    exists block,
      backendBlocks (createBackendConfigs (Many services) b) !! k
        = Some block /\
      length block = 3 + length (children s) /\
      block !! 0 = Some ("backend " +:+ name s) /\
      block !! 1 = Some ("    balance " +:+ b) /\
      block !! 2 = Some "    cookie SERVERID insert indirect nocache" /\
      forall i a, children s !! i = Some a ->
        block !! (3 + i) =
          Some ("    server " +:+ name s +:+ "-" +:+ decimal i +:+ " " +:+
                a +:+ ":80 check resolvers dns cookie " +:+
                name s +:+ "-" +:+ decimal i).
Proof.
  intros Hb Hs.
  pose proof (backendBlocks_createBackendConfigs b services Hb Hs) as E.
  split; [exact E|].
  intros k s Hk. exists (blockLines (descriptor b s)).
  rewrite E, list_lookup_fmap, Hk.
  split; [reflexivity|].
  unfold blockLines, descriptor; cbn [backend balanceAlgorithm servers].
  split; [cbn [length]; now rewrite length_map, length_imap|].
  do 3 (split; [reflexivity|]).
  intros i a Hi.
  change (map serverLine (imap (serverEntry (name s)) (children s)) !! i =
          Some ("    server " +:+ name s +:+ "-" +:+ decimal i +:+ " " +:+
                a +:+ ":80 check resolvers dns cookie " +:+
                name s +:+ "-" +:+ decimal i)).
  rewrite list_lookup_fmap, list_lookup_imap, Hi. cbn [fmap option_fmap option_map].
  unfold serverLine, serverEntry; cbn [id address port cookie].
  rewrite !append_assoc. reflexivity.
Qed.

Lemma createBackendConfigs_one_block_per_service_witness :
  backendBlocks
    (createBackendConfigs (Many [web; db]) "roundrobin") =
  [ ["backend web"; "    balance roundrobin";
     "    cookie SERVERID insert indirect nocache";
     "    server web-0 10.0.0.1:80 check resolvers dns cookie web-0";
     "    server web-1 10.0.0.2:80 check resolvers dns cookie web-1"];
    ["backend db"; "    balance roundrobin";
     "    cookie SERVERID insert indirect nocache"] ].
Proof.
  exact (proj1 (createBackendConfigs_one_block_per_service
                  [web; db] "roundrobin" eq_refl eq_refl)).
Defined.

(** C3. The code breaks the claim on a routing map one of whose
    domain keys is [hasOwnProperty]: the guard of the loop calls
    [domainToService.hasOwnProperty], which on this map is the service
    stored under that key and not a function, so [urlRoutingConfig]
    throws at the first key it visits and prints no rule for the pair.
    The same happens on a map made by [Object.create(null)], which has
    no such method at all. *)
Theorem urlRoutingConfig_throws_on_key_hasOwnProperty (w : World) :
  urlRoutingConfig (literal [("hasOwnProperty", svcA)]) w =
    Throw (TypeError "domainToService.hasOwnProperty is not a function") /\
  urlRoutingConfig (mkObject [mkProperty "a.com" true svcA] false) w =
    Throw (TypeError "domainToService.hasOwnProperty is not a function").
Proof. split; reflexivity. Qed.

(** C4. Single-target entry point: for every service whose name fits
    on one line, when the preamble template can be read,
    [singleServiceLoadBalancer] returns the proxy service whose
    configuration document has, as frontend section, the line feed and
    the one directive [default_backend name] with no condition; read
    line by line, this section holds exactly one default-backend
    directive, no host-match ([acl]) rule and no use-backend
    directive. *)
Theorem singleServiceLoadBalancer_default_backend_only
    (n : nat) (service : Service) (balance : option string)
    (templ : string) (w : World) :
  template w = Some templ ->
  singleLine (name service) = true ->
  exists frontend,
    singleServiceLoadBalancer n service balance w =
      Ok (hapService n
            (assemble (render templ exposedPort) frontend
               (createBackendConfigs (One service)
                  (default "roundrobin" balance))))
         (grant w (grants [service])) /\
    frontend = newline +:+ "    default_backend " +:+ backendName service /\
    filter (fun l => isDefaultBackend l = true) (lines frontend) =
      ["    default_backend " +:+ backendName service] /\
    filter (fun l => isAcl l = true) (lines frontend) = [] /\
    filter (fun l => isUseBackend l = true) (lines frontend) = [].
Proof.
  intros Ht Hn.
  exists (format defaultBackendPattern [AStr (backendName service)]).
  split; [now apply singleServiceLoadBalancer_Ok|].
  rewrite format_defaultBackendPattern.
  split; [cbn; now rewrite append_empty_r|].
  assert (L : forallb singleLine [defaultBackendLine (backendName service)]
              = true).
  { cbn [forallb]. unfold defaultBackendLine, backendName.
    now rewrite singleLine_app, Hn. }
  rewrite (lines_prefixed _ L).
  repeat split.
Qed.

Lemma singleServiceLoadBalancer_default_backend_only_witness :
  exists frontend,
    singleServiceLoadBalancer 2 web None sampleWorld =
      Ok (hapService 2
            (assemble (render sampleTemplate exposedPort) frontend
               (createBackendConfigs (One web) "roundrobin")))
         (grant sampleWorld (grants [web])) /\
    frontend = newline +:+ "    default_backend " +:+ "web" /\
    filter (fun l => isDefaultBackend l = true) (lines frontend) =
      ["    default_backend " +:+ "web"] /\
    filter (fun l => isAcl l = true) (lines frontend) = [] /\
    filter (fun l => isUseBackend l = true) (lines frontend) = [].
Proof.
  exact (singleServiceLoadBalancer_default_backend_only
           2 web None sampleTemplate sampleWorld eq_refl eq_refl).
Defined.

(** C1, as stated, fails: with the one service [svcA] behind the two
    domains [a.com] and [b.com], the backend section of the document
    [withURLrouting] delivers holds two backend blocks, both headed
    [backend svcA], while the map refers to one distinct service. *)
Lemma shared_service_gets_two_blocks :
  withURLrouting 1 sharedMap None sampleWorld =
    Ok (hapService 1
          (assemble (render sampleTemplate exposedPort) "
    acl svcA_req hdr(host) -i a.com
    acl svcA_req hdr(host) -i b.com
    use_backend svcA if svcA_req
    use_backend svcA if svcA_req"
             (createBackendConfigs (Many [svcA; svcA]) "roundrobin")))
       (grant sampleWorld (grants [svcA; svcA])) /\
  backendBlocks (createBackendConfigs (Many [svcA; svcA]) "roundrobin") =
    [ ["backend svcA"; "    balance roundrobin";
       "    cookie SERVERID insert indirect nocache";
       "    server svcA-0 1.svcA.q:80 check resolvers dns cookie svcA-0"];
      ["backend svcA"; "    balance roundrobin";
       "    cookie SERVERID insert indirect nocache";
       "    server svcA-0 1.svcA.q:80 check resolvers dns cookie svcA-0"] ] /\
  distinctServices sharedMap = ["svcA"] /\
  length (backendBlocks
            (createBackendConfigs (Many [svcA; svcA]) "roundrobin")) <>
  length (distinctServices sharedMap).
Proof.
  split; [exact (withURLrouting_Ok 1 sharedMap None sampleTemplate
                   sampleWorld eq_refl eq_refl)|].
  split; [vm_compute; reflexivity|].
  split; [vm_compute; reflexivity|].
  vm_compute. discriminate.
Qed.

(** C1, amended. Multi-target entry point: on every run of
    [withURLrouting] that returns, for a routing map and a balance token
    that print one item per line, the backend section of the document
    delivered has exactly one backend block per domain key (own
    property) of the map, in iteration order: the [k]-th block is the
    block of the service under the [k]-th key; and the frontend section
    has one use-backend directive per domain key, the [k]-th routing to
    the service under the [k]-th key.  A service under several keys
    gets one block per key, each referenced by its own use-backend
    directive. *)
Theorem withURLrouting_one_block_per_domain_key
    (n : nat) (o : JSObject) (balance : option string)
    (w w' : World) (h : ProxyService) :
  withURLrouting n o balance w = Ok h w' ->
  singleLine (default "roundrobin" balance) = true ->
  forallb propertyOnLines (ownProperties o) = true ->
  forallb serviceOnLines (referenced o) = true ->
  exists templ frontend services backend,
    template w = Some templ /\
    h = hapService n
          (assemble (render templ exposedPort) frontend backend) /\
    urlRoutingConfig o w = Ok frontend w /\
    forIn (visited o) (collectStep o) [] w = Ok services w /\
    backend =
      createBackendConfigs (Many services) (default "roundrobin" balance) /\
    backendBlocks backend =
      map (fun p => blockLines
                      (descriptor (default "roundrobin" balance) (value p)))
        (ownProperties o) /\
    length (backendBlocks backend) = length (ownProperties o) /\
    filter (fun l => isUseBackend l = true) (lines frontend) =
      map (fun p => "    use_backend " +:+ backendName (value p) +:+
                    " if " +:+ backendName (value p) +:+ "_req")
        (ownProperties o).
Proof.
  intros H Hb Hp Hs.
  destruct (withURLrouting_inv _ _ _ _ _ _ H) as (W & templ & T & -> & _).
  exists templ, (routingText o), (referenced o),
    (createBackendConfigs (Many (referenced o))
       (default "roundrobin" balance)).
  split; [exact T|]. split; [reflexivity|].
  split; [exact (urlRoutingConfig_Ok o w W)|].
  split; [exact (collect_Ok o w W)|]. split; [reflexivity|].
  rewrite (backendBlocks_createBackendConfigs _ _ Hb Hs).
  unfold referenced. rewrite map_map, length_map.
  split; [reflexivity|]. split; [reflexivity|].
  rewrite (lines_routingText o Hp).
  rewrite filter_cons_False by discriminate.
  unfold aclLines, useBackendLines.
  rewrite filter_app, filter_useBackend_acl, filter_useBackend_use.
  cbn [app]. apply map_ext. intros p.
  unfold useBackendLine, rule, backendName; cbn [matchId domain target].
  reflexivity.
Qed.

Lemma withURLrouting_one_block_per_domain_key_witness :
  exists templ frontend services backend,
    template sampleWorld = Some templ /\
    hapService 1
      (assemble (render sampleTemplate exposedPort) (routingText sharedMap)
         (createBackendConfigs (Many [svcA; svcA]) "roundrobin")) =
    hapService 1
      (assemble (render templ exposedPort) frontend backend) /\
    urlRoutingConfig sharedMap sampleWorld = Ok frontend sampleWorld /\
    forIn (visited sharedMap) (collectStep sharedMap) [] sampleWorld =
      Ok services sampleWorld /\
    backend = createBackendConfigs (Many services) "roundrobin" /\
    backendBlocks backend =
      map (fun p => blockLines (descriptor "roundrobin" (value p)))
        (ownProperties sharedMap) /\
    length (backendBlocks backend) = length (ownProperties sharedMap) /\
    filter (fun l => isUseBackend l = true) (lines frontend) =
      map (fun p => "    use_backend " +:+ backendName (value p) +:+
                    " if " +:+ backendName (value p) +:+ "_req")
        (ownProperties sharedMap).
Proof.
  exact (withURLrouting_one_block_per_domain_key
           1 sharedMap None sampleWorld
           (grant sampleWorld (grants [svcA; svcA]))
           (hapService 1
              (assemble (render sampleTemplate exposedPort)
                 (routingText sharedMap)
                 (createBackendConfigs (Many [svcA; svcA]) "roundrobin")))
           (withURLrouting_Ok 1 sharedMap None sampleTemplate sampleWorld
              eq_refl eq_refl)
           eq_refl eq_refl eq_refl).
Defined.

(** C10. Multi-target entry point: on every run of [withURLrouting]
    that returns, for a routing map whose service names are tokens of
    the target grammar and whose domains, addresses and balance token
    each fit on one line, the backends the use-backend directives of
    the frontend section route to are, position by position, the names
    the header lines of the backend section declare (both follow the
    map's iteration order); so every use-backend directive names a
    declared backend.  (A run that throws delivers no document and
    emits no directive.) *)
Theorem withURLrouting_routes_to_declared_backends
    (n : nat) (o : JSObject) (balance : option string)
    (w w' : World) (h : ProxyService) :
  withURLrouting n o balance w = Ok h w' ->
  singleLine (default "roundrobin" balance) = true ->
  forallb propertyOnLines (ownProperties o) = true ->
  forallb serviceOnLines (referenced o) = true ->
  namesAreTokens o = true ->
  exists templ frontend services backend,
    template w = Some templ /\
    h = hapService n
          (assemble (render templ exposedPort) frontend backend) /\
    urlRoutingConfig o w = Ok frontend w /\
    forIn (visited o) (collectStep o) [] w = Ok services w /\
    backend =
      createBackendConfigs (Many services) (default "roundrobin" balance) /\
    usedBackends frontend = map backendName (referenced o) /\
    declaredBackends backend = map backendName (referenced o) /\
    (forall k t, usedBackends frontend !! k = Some t ->
                 declaredBackends backend !! k = Some t) /\
    (forall t, t ∈ usedBackends frontend -> t ∈ declaredBackends backend).
Proof.
  intros H Hb Hp Hs Hn.
  destruct (withURLrouting_inv _ _ _ _ _ _ H) as (W & templ & T & -> & _).
  exists templ, (routingText o), (referenced o),
    (createBackendConfigs (Many (referenced o))
       (default "roundrobin" balance)).
  split; [exact T|]. split; [reflexivity|].
  split; [exact (urlRoutingConfig_Ok o w W)|].
  split; [exact (collect_Ok o w W)|]. split; [reflexivity|].
  rewrite (usedBackends_routingText o Hp Hn).
  rewrite (declaredBackends_createBackendConfigs _ _ Hb Hs).
  repeat split; auto.
Qed.

Lemma withURLrouting_routes_to_declared_backends_witness :
  exists templ frontend services backend,
    template sampleWorld = Some templ /\
    hapService 1
      (assemble (render sampleTemplate exposedPort)
         (routingText (literal [("a.com", svcA); ("b.com", svcB)]))
         (createBackendConfigs (Many [svcA; svcB]) "leastconn")) =
    hapService 1
      (assemble (render templ exposedPort) frontend backend) /\
    urlRoutingConfig (literal [("a.com", svcA); ("b.com", svcB)]) sampleWorld
      = Ok frontend sampleWorld /\
    forIn [mkProperty "a.com" true svcA; mkProperty "b.com" true svcB]
      (collectStep (literal [("a.com", svcA); ("b.com", svcB)])) []
      sampleWorld = Ok services sampleWorld /\
    backend = createBackendConfigs (Many services) "leastconn" /\
    usedBackends frontend = ["svcA"; "svcB"] /\
    declaredBackends backend = ["svcA"; "svcB"] /\
    (forall k t, usedBackends frontend !! k = Some t ->
                 declaredBackends backend !! k = Some t) /\
    (forall t, t ∈ usedBackends frontend -> t ∈ declaredBackends backend).
Proof.
  exact (withURLrouting_routes_to_declared_backends
           1 (literal [("a.com", svcA); ("b.com", svcB)]) (Some "leastconn")
           sampleWorld (grant sampleWorld (grants [svcA; svcB]))
           (hapService 1
              (assemble (render sampleTemplate exposedPort)
                 (routingText (literal [("a.com", svcA); ("b.com", svcB)]))
                 (createBackendConfigs (Many [svcA; svcB]) "leastconn")))
           (withURLrouting_Ok 1 (literal [("a.com", svcA); ("b.com", svcB)])
              (Some "leastconn") sampleTemplate sampleWorld eq_refl eq_refl)
           eq_refl eq_refl eq_refl eq_refl).
Defined.

(** C5, as stated, fails: with the balance argument omitted, the
    balance directive of the generated backend reads [roundrobin], not
    [round-robin]. *)
Lemma omitted_balance_is_not_round_robin :
  singleServiceLoadBalancer 1 db None sampleWorld =
    Ok (hapService 1
          (assemble (render sampleTemplate exposedPort)
             (newline +:+ "    default_backend db")
             (createBackendConfigs (One db) "roundrobin")))
       (grant sampleWorld (grants [db])) /\
  backendBlocks (createBackendConfigs (One db) "roundrobin") =
    [ ["backend db"; "    balance roundrobin";
       "    cookie SERVERID insert indirect nocache"] ] /\
  delivered (singleServiceLoadBalancer 1 db None sampleWorld) <>
  delivered (singleServiceLoadBalancer 1 db (Some "round-robin") sampleWorld).
Proof.
  split; [exact (singleServiceLoadBalancer_Ok 1 db None sampleTemplate
                   sampleWorld eq_refl)|].
  split; [vm_compute; reflexivity|].
  rewrite (singleServiceLoadBalancer_Ok 1 db None sampleTemplate
             sampleWorld eq_refl).
  rewrite (singleServiceLoadBalancer_Ok 1 db (Some "round-robin")
             sampleTemplate sampleWorld eq_refl).
  rewrite !delivered_hapService.
  intros H. injection H as H. vm_compute in H. discriminate.
Qed.

(** C5, amended. When the balance argument is omitted, both entry
    points use the token [roundrobin], passed as it is into the balance
    directive of every backend they generate: the document of
    [singleServiceLoadBalancer] (template readable) and the document of
    every run of [withURLrouting] that returns have, as backend
    section, what [createBackendConfigs] prints for the token
    [roundrobin], and every backend block of that section carries the
    line [balance roundrobin] (for services that print one item per
    line). *)
Theorem default_balance_is_roundrobin
    (n : nat) (service : Service) (o : JSObject) (templ : string)
    (w w' : World) (h : ProxyService) :
  template w = Some templ ->
  serviceOnLines service = true ->
  forallb serviceOnLines (referenced o) = true ->
  withURLrouting n o None w = Ok h w' ->
  singleServiceLoadBalancer n service None w =
    Ok (hapService n
          (assemble (render templ exposedPort)
             (newline +:+ "    default_backend " +:+ backendName service)
             (createBackendConfigs (One service) "roundrobin")))
       (grant w (grants [service])) /\
  length (backendBlocks (createBackendConfigs (One service) "roundrobin"))
    = 1 /\
  Forall (fun block => block !! 1 = Some "    balance roundrobin")
    (backendBlocks (createBackendConfigs (One service) "roundrobin")) /\
  exists frontend services,
    urlRoutingConfig o w = Ok frontend w /\
    forIn (visited o) (collectStep o) [] w = Ok services w /\
    h = hapService n
          (assemble (render templ exposedPort) frontend
             (createBackendConfigs (Many services) "roundrobin")) /\
    length (backendBlocks (createBackendConfigs (Many services) "roundrobin"))
      = length (ownProperties o) /\
    Forall (fun block => block !! 1 = Some "    balance roundrobin")
      (backendBlocks (createBackendConfigs (Many services) "roundrobin")).
Proof.
  intros T Hs Ho H.
  assert (B : forall l, forallb serviceOnLines l = true ->
              Forall (fun block => block !! 1 = Some "    balance roundrobin")
                (backendBlocks (createBackendConfigs (Many l) "roundrobin"))).
  { intros l Hl.
    rewrite (backendBlocks_createBackendConfigs "roundrobin" l eq_refl Hl).
    apply Forall_forall. intros block Hin.
    apply list_elem_of_In, in_map_iff in Hin as (s & <- & _).
    reflexivity. }
  assert (H1 : forallb serviceOnLines [service] = true)
    by (cbn [forallb]; now rewrite Hs).
  split.
  { rewrite (singleServiceLoadBalancer_Ok n service None templ w T).
    rewrite format_defaultBackendPattern. cbn [prefixed default].
    unfold defaultBackendLine. now rewrite append_empty_r. }
  split.
  { change (createBackendConfigs (One service) "roundrobin")
      with (createBackendConfigs (Many [service]) "roundrobin").
    now rewrite (backendBlocks_createBackendConfigs "roundrobin" [service]
                   eq_refl H1). }
  split; [exact (B [service] H1)|].
  destruct (withURLrouting_inv _ _ _ _ _ _ H) as (W & templ' & T' & -> & _).
  rewrite T in T'. injection T' as <-.
  exists (routingText o), (referenced o).
  split; [exact (urlRoutingConfig_Ok o w W)|].
  split; [exact (collect_Ok o w W)|]. split; [reflexivity|].
  split; [|exact (B _ Ho)].
  rewrite (backendBlocks_createBackendConfigs "roundrobin" _ eq_refl Ho).
  unfold referenced. now rewrite !length_map.
Qed.

Lemma default_balance_is_roundrobin_witness :
  singleServiceLoadBalancer 1 web None sampleWorld =
    Ok (hapService 1
          (assemble (render sampleTemplate exposedPort)
             (newline +:+ "    default_backend " +:+ backendName web)
             (createBackendConfigs (One web) "roundrobin")))
       (grant sampleWorld (grants [web])) /\
  length (backendBlocks (createBackendConfigs (One web) "roundrobin")) = 1 /\
  Forall (fun block => block !! 1 = Some "    balance roundrobin")
    (backendBlocks (createBackendConfigs (One web) "roundrobin")) /\
  exists frontend services,
    urlRoutingConfig sharedMap sampleWorld = Ok frontend sampleWorld /\
    forIn (visited sharedMap) (collectStep sharedMap) [] sampleWorld =
      Ok services sampleWorld /\
    hapService 1
      (assemble (render sampleTemplate exposedPort) (routingText sharedMap)
         (createBackendConfigs (Many [svcA; svcA]) "roundrobin")) =
    hapService 1
      (assemble (render sampleTemplate exposedPort) frontend
         (createBackendConfigs (Many services) "roundrobin")) /\
    length (backendBlocks (createBackendConfigs (Many services) "roundrobin"))
      = length (ownProperties sharedMap) /\
    Forall (fun block => block !! 1 = Some "    balance roundrobin")
      (backendBlocks (createBackendConfigs (Many services) "roundrobin")).
Proof.
  exact (default_balance_is_roundrobin 1 web sharedMap sampleTemplate
           sampleWorld (grant sampleWorld (grants [svcA; svcA]))
           (hapService 1
              (assemble (render sampleTemplate exposedPort)
                 (routingText sharedMap)
                 (createBackendConfigs (Many [svcA; svcA]) "roundrobin")))
           eq_refl eq_refl eq_refl
           (withURLrouting_Ok 1 sharedMap None sampleTemplate sampleWorld
              eq_refl eq_refl)).
Defined.

(** C6. Backend generator, service without endpoints: for every list
    of services that print one item per line, a service in it whose
    snapshot [children] is empty still gets its backend block, made of
    the header line, the balance line and the cookie-affinity line,
    none of which is a server line.  The generator has no error result; and an entry
    point run on such a service returns normally whenever the preamble
    template can be read. *)
Theorem createBackendConfigs_empty_snapshot
    (pre post : list Service) (s : Service) (b : string) :
  children s = [] ->
  singleLine b = true ->
  forallb serviceOnLines (pre ++ s :: post) = true ->
  backendBlocks (createBackendConfigs (Many (pre ++ s :: post)) b)
    !! length pre =
    Some ["backend " +:+ name s; "    balance " +:+ b;
          "    cookie SERVERID insert indirect nocache"] /\
  filter (fun l => isServer l = true)
    ["backend " +:+ name s; "    balance " +:+ b;
     "    cookie SERVERID insert indirect nocache"] = [] /\
  backendBlocks (createBackendConfigs (One s) b) =
    [ ["backend " +:+ name s; "    balance " +:+ b;
       "    cookie SERVERID insert indirect nocache"] ] /\
  forall n balance templ w,
    template w = Some templ ->
    exists h w', singleServiceLoadBalancer n s balance w = Ok h w'.
Proof.
  intros Hc Hb Hs.
  assert (B : blockLines (descriptor b s) =
              ["backend " +:+ name s; "    balance " +:+ b;
               "    cookie SERVERID insert indirect nocache"]).
  { unfold blockLines, descriptor;
      cbn [backend balanceAlgorithm servers]. now rewrite Hc. }
  split; [|split; [reflexivity|split]].
  - rewrite (backendBlocks_createBackendConfigs _ _ Hb Hs).
    rewrite map_app. cbn [map].
    rewrite <- (length_map (fun s => blockLines (descriptor b s)) pre).
    now rewrite list_lookup_middle, B.
  - rewrite forallb_app in Hs. apply andb_true_iff in Hs as [_ Hs].
    cbn [forallb] in Hs. apply andb_true_iff in Hs as [Hs _].
    assert (H1 : forallb serviceOnLines [s] = true)
      by (cbn [forallb]; now rewrite Hs).
    pose proof (backendBlocks_createBackendConfigs b [s] Hb H1) as E.
    cbn [map] in E. rewrite B in E. exact E.
  - intros n balance templ w Ht. eexists. eexists.
    exact (singleServiceLoadBalancer_Ok n s balance templ w Ht).
Qed.

Lemma createBackendConfigs_empty_snapshot_witness :
  backendBlocks (createBackendConfigs (Many ([web] ++ db :: [svcA]))
                   "roundrobin") !! 1 =
    Some ["backend db"; "    balance roundrobin";
          "    cookie SERVERID insert indirect nocache"].
Proof.
  exact (proj1 (createBackendConfigs_empty_snapshot
                  [web] [svcA] db "roundrobin" eq_refl eq_refl eq_refl)).
Defined.

(** C7. Backend generator, one snapshot growing: for services that
    print one item per line, when the snapshot of the one service
    called [nm], at position [length pre] of the list, grows from [[a]]
    to [[a; b]] and nothing else changes, the regenerated backend
    section has the same number of blocks; the block of that service is
    its former block followed by one more server line, with id [nm-1],
    for [b]; and the block at every other position is the same as
    before.  In the text itself, what is printed before and after that
    service's block is unchanged. *)
Theorem createBackendConfigs_snapshot_growth
    (pre post : list Service) (nm a b balance : string) :
  singleLine balance = true ->
  forallb serviceOnLines (pre ++ mkService nm [a; b] :: post) = true ->
  let old := createBackendConfigs (Many (pre ++ mkService nm [a] :: post))
               balance in
  let new := createBackendConfigs (Many (pre ++ mkService nm [a; b] :: post))
               balance in
  (exists block,
     backendBlocks old !! length pre = Some block /\
     backendBlocks new !! length pre =
       Some (block ++
             ["    server " +:+ nm +:+ "-1 " +:+ b +:+
              ":80 check resolvers dns cookie " +:+ nm +:+ "-1"])) /\
  (forall k, k <> length pre ->
             backendBlocks new !! k = backendBlocks old !! k) /\
  length (backendBlocks new) = length (backendBlocks old) /\
  (exists before after,
     old = before +:+ blockText balance (mkService nm [a]) +:+ after /\
     new = before +:+ blockText balance (mkService nm [a; b]) +:+ after).
Proof.
  intros Hb Hnew old new.
  assert (Hold : forallb serviceOnLines (pre ++ mkService nm [a] :: post)
                 = true).
  { rewrite forallb_app in *. cbn [forallb] in *.
    apply andb_true_iff in Hnew as [H1 H2].
    apply andb_true_iff in H2 as [H2 H3]. rewrite H1, H3.
    unfold serviceOnLines in *. cbn [name children forallb] in *.
    apply andb_true_iff in H2 as [Hn Ha].
    apply andb_true_iff in Ha as [Ha _]. now rewrite Hn, Ha. }
  unfold old, new.
  rewrite (backendBlocks_createBackendConfigs _ _ Hb Hold).
  rewrite (backendBlocks_createBackendConfigs _ _ Hb Hnew).
  rewrite !map_app. cbn [map].
  set (f := fun s => blockLines (descriptor balance s)).
  assert (Lp : length (map f pre) = length pre) by apply length_map.
  repeat split.
  - exists (f (mkService nm [a])).
    rewrite <- Lp, !list_lookup_middle by reflexivity.
    split; [reflexivity|]. f_equal.
    unfold f, blockLines, descriptor, serverLine, serverEntry.
    cbn. now rewrite !append_assoc.
  - intros k Hk. destruct (decide (k < length pre)) as [Hlt|Hge].
    + rewrite !lookup_app_l by (rewrite Lp; exact Hlt). reflexivity.
    + rewrite !lookup_app_r by (rewrite Lp; lia).
      destruct (k - length (map f pre)) as [|j] eqn:E;
        [rewrite Lp in E; lia | reflexivity].
  - rewrite !length_app. reflexivity.
  - exists (blocksText balance pre), (blocksText balance post).
    rewrite !createBackendConfigs_text. cbn [toArray].
    rewrite !blocksText_app. split; reflexivity.
Qed.

Lemma createBackendConfigs_snapshot_growth_witness :
  exists block,
    backendBlocks
      (createBackendConfigs
         (Many ([web] ++ mkService "svcA" ["1.svcA.q"] :: [db]))
         "roundrobin") !! 1 = Some block /\
    backendBlocks
      (createBackendConfigs
         (Many ([web] ++ mkService "svcA" ["1.svcA.q"; "2.svcA.q"] :: [db]))
         "roundrobin") !! 1 =
      Some (block ++
            ["    server " +:+ "svcA" +:+ "-1 " +:+ "2.svcA.q" +:+
             ":80 check resolvers dns cookie " +:+ "svcA" +:+ "-1"]).
Proof.
  exact (proj1 (createBackendConfigs_snapshot_growth
                  [web] [db] "svcA" "1.svcA.q" "2.svcA.q" "roundrobin"
                  eq_refl eq_refl)).
Defined.

(** C8. Determinism: in two worlds that hold the same template text
    (or both none), each entry point, called with the same replica
    count, services or routing map and balance argument, hands back the
    same proxy service, hence the same configuration document, or
    throws in both; the same holds for the document assembler.  In
    particular a second call made after a first one, in the world the
    first one left, returns what the first returned. *)
Theorem generation_is_deterministic (w1 w2 : World) :
  template w1 = template w2 ->
  (forall n service balance,
     returned (singleServiceLoadBalancer n service balance w1) =
     returned (singleServiceLoadBalancer n service balance w2)) /\
  (forall n o balance,
     returned (withURLrouting n o balance w1) =
     returned (withURLrouting n o balance w2)) /\
  (forall frontend backend,
     returned (createConfigFiles frontend backend w1) =
     returned (createConfigFiles frontend backend w2)) /\
  (forall n o balance h w',
     withURLrouting n o balance w1 = Ok h w' ->
     returned (withURLrouting n o balance w') = Some h) /\
  (forall n service balance h w',
     singleServiceLoadBalancer n service balance w1 = Ok h w' ->
     returned (singleServiceLoadBalancer n service balance w') = Some h).
Proof.
  intros H.
  assert (U : forall n o balance,
            returned (withURLrouting n o balance w1) =
            returned (withURLrouting n o balance w2)).
  { intros n o balance. destruct (walkable o) eqn:W.
    - destruct (template w1) as [templ|] eqn:E1; symmetry in H.
      + now rewrite (withURLrouting_Ok _ _ _ _ _ W E1),
          (withURLrouting_Ok _ _ _ _ _ W H).
      + now rewrite (withURLrouting_ENOENT _ _ _ _ W E1),
          (withURLrouting_ENOENT _ _ _ _ W H).
    - now rewrite !(withURLrouting_TypeError _ _ _ _ W). }
  split; [|split; [exact U|split; [|split]]].
  - intros n service balance.
    destruct (template w1) as [templ|] eqn:E1; symmetry in H.
    + now rewrite (singleServiceLoadBalancer_Ok _ _ _ _ _ E1),
        (singleServiceLoadBalancer_Ok _ _ _ _ _ H).
    + now rewrite (singleServiceLoadBalancer_Throw _ _ _ _ E1),
        (singleServiceLoadBalancer_Throw _ _ _ _ H).
  - intros frontend backend.
    destruct (template w1) as [templ|] eqn:E1; symmetry in H.
    + now rewrite (createConfigFiles_Ok _ _ _ _ E1),
        (createConfigFiles_Ok _ _ _ _ H).
    + now rewrite (createConfigFiles_Throw _ _ _ E1),
        (createConfigFiles_Throw _ _ _ H).
  - intros n o balance h w' R.
    destruct (withURLrouting_inv _ _ _ _ _ _ R) as (W & templ & T & -> & ->).
    rewrite (withURLrouting_Ok n o balance templ); [reflexivity | exact W |].
    now rewrite template_grant.
  - intros n service balance h w' R.
    destruct (template w1) as [templ|] eqn:E1.
    + rewrite (singleServiceLoadBalancer_Ok _ _ _ _ _ E1) in R.
      injection R as <- <-.
      rewrite (singleServiceLoadBalancer_Ok n service balance templ);
        [reflexivity|]. now rewrite template_grant.
    + now rewrite (singleServiceLoadBalancer_Throw _ _ _ _ E1) in R.
Qed.

Lemma generation_is_deterministic_witness :
  returned (withURLrouting 2 sharedMap None sampleWorld) =
  returned (withURLrouting 2 sharedMap None
              (grant sampleWorld (grants [svcA; svcA]))).
Proof.
  exact (proj1 (proj2 (generation_is_deterministic sampleWorld
                         (grant sampleWorld (grants [svcA; svcA])) eq_refl))
           2 sharedMap None).
Defined.

(** C9, as stated, fails: the assembler puts no line feed between the
    rendered preamble and the frontend text.  With the frontend text
    [F] and the backend text [B] the document ends in [bind *:80F],
    line feed, [B]; the claim has a line feed before [F] as well. *)
Lemma no_newline_after_preamble :
  render sampleTemplate exposedPort = "frontend http-in
    bind *:80" /\
  createConfigFiles "F" "B" sampleWorld =
    Ok {[ configPath := "frontend http-in
    bind *:80F
B" ]} sampleWorld /\
  "frontend http-in
    bind *:80F
B" <> render sampleTemplate exposedPort +:+ newline +:+ "F" +:+ newline +:+ "B".
Proof.
  split; [vm_compute; reflexivity|].
  split.
  - rewrite (createConfigFiles_Ok "F" "B" sampleTemplate sampleWorld eq_refl).
    assert (E : assemble (render sampleTemplate exposedPort) "F" "B" =
                "frontend http-in
    bind *:80F
B") by (vm_compute; reflexivity).
    now rewrite E.
  - vm_compute. discriminate.
Qed.

(** C9, amended. Document assembler: for every frontend text and
    backend text, when the preamble template can be read, the assembled
    document is the rendered preamble, directly followed by the
    frontend text, then a line feed, then the backend text; it is
    delivered as the single-entry mapping from [configPath] to this
    text, and the world is left as it was.  Rendering puts the exposed
    port, 80, in the place of the placeholder of a template that holds
    it once. *)
Theorem createConfigFiles_document
    (frontend backend templ : string) (w : World) :
  template w = Some templ ->
  createConfigFiles frontend backend w =
    Ok {[ configPath :=
            render templ exposedPort +:+ frontend +:+ newline +:+ backend ]}
       w /\
  forall pre post,
    lacks "{"%char pre = true -> lacks "{"%char post = true ->
    templ = pre +:+ "{{port}}" +:+ post ->
    render templ exposedPort = pre +:+ "80" +:+ post.
Proof.
  intros H. split; [exact (createConfigFiles_Ok _ _ _ _ H)|].
  intros pre post Hpre Hpost ->. now apply render_placeholder.
Qed.

Lemma createConfigFiles_document_witness :
  createConfigFiles "F" "B" sampleWorld =
    Ok {[ configPath :=
            render sampleTemplate exposedPort +:+ "F" +:+ newline +:+ "B" ]}
       sampleWorld.
Proof.
  exact (proj1 (createConfigFiles_document "F" "B" sampleTemplate sampleWorld
                  eq_refl)).
Defined.

(** ** Further properties of the program *)

Module MoreFacts.

Lemma prefixed_serverLines (n : string) (l : list string) (f : nat -> nat) :
  prefixed (map serverLine (imap (fun i => serverEntry n (f i)) l)) =
    joined (imap (fun i => serverText n (f i)) l).
Proof.
  revert f. induction l as [|a l IH]; intros f; [reflexivity|].
  rewrite !imap_cons. unfold compose. cbv beta.
  cbn [map prefixed joined foldr].
  change (foldr String.append "" ?x) with (joined x).
  rewrite <- (IH (fun i => f (S i))).
  unfold serverText, serverLine, serverEntry; cbn [id address port cookie].
  rewrite !append_assoc. reflexivity.
Qed.

Lemma blockText_closed (b : string) (s : Service) :
  blockText b s =
    newline +:+ "backend " +:+ name s +:+
    newline +:+ "    balance " +:+ b +:+
    newline +:+ "    cookie SERVERID insert indirect nocache" +:+
    joined (imap (serverText (name s)) (children s)) +:+ newline.
Proof.
  unfold blockText, blockLines, descriptor;
    cbn [backend balanceAlgorithm servers prefixed].
  pose proof (prefixed_serverLines (name s) (children s) (fun i => i)) as E.
  cbn beta in E.
  change (fun i : nat => serverEntry (name s) i) with (serverEntry (name s))
    in E.
  change (fun i : nat => serverText (name s) i) with (serverText (name s))
    in E.
  rewrite E. unfold headerLine, balanceLine, cookieLine.
  rewrite !append_assoc. reflexivity.
Qed.

Lemma blockText_not_empty (b : string) (s : Service) (r : string) :
  blockText b s +:+ r <> "".
Proof. rewrite blockText_closed. discriminate. Qed.

End MoreFacts.
Import MoreFacts.

(** X1. For every service and balance token, with no condition on
    their characters, the text [createBackendConfigs] prints for the
    one service is: the header, balance and cookie-affinity lines, each
    after a line feed; then for each address of the snapshot, at its
    index [i], the server text of id [name-i]; then one line feed.
    Nothing else is printed, and no index outside the snapshot is
    read. *)
Theorem createBackendConfigs_single_text (s : Service) (b : string) :
  createBackendConfigs (One s) b =
    newline +:+ "backend " +:+ name s +:+
    newline +:+ "    balance " +:+ b +:+
    newline +:+ "    cookie SERVERID insert indirect nocache" +:+
    joined (imap (fun i a =>
                    newline +:+ "    server " +:+ name s +:+ "-" +:+
                    decimal i +:+ " " +:+ a +:+
                    ":80 check resolvers dns cookie " +:+
                    name s +:+ "-" +:+ decimal i)
              (children s)) +:+
    newline.
Proof.
  rewrite createBackendConfigs_text. cbn [toArray blocksText].
  rewrite append_empty_r. apply blockText_closed.
Qed.

(** X2. The backend generator goes service by service: an empty array
    prints nothing, and only an empty array does; the text for two
    arrays put end to end is the two texts put end to end; and a
    service passed alone prints what the array holding just it
    prints. *)
Theorem createBackendConfigs_composes (l1 l2 : list Service) (b : string) :
  createBackendConfigs (Many []) b = "" /\
  (createBackendConfigs (Many l1) b = "" <-> l1 = []) /\
  createBackendConfigs (Many (l1 ++ l2)) b =
    createBackendConfigs (Many l1) b +:+ createBackendConfigs (Many l2) b /\
  forall s, createBackendConfigs (One s) b =
            createBackendConfigs (Many [s]) b.
Proof.
  split; [reflexivity|]. split; [|split].
  - split; [|now intros ->].
    rewrite createBackendConfigs_text. cbn [toArray].
    destruct l1 as [|s l]; [reflexivity|].
    cbn [blocksText]. intros H. now apply blockText_not_empty in H.
  - rewrite !createBackendConfigs_text. cbn [toArray].
    apply blocksText_app.
  - reflexivity.
Qed.

Module RoutingFacts.

Lemma prefixed_joined {A} (f : A -> string) (l : list A) :
  prefixed (map f l) = joined (map (fun x => newline +:+ f x) l).
Proof.
  induction l as [|x l IH]; [reflexivity|].
  cbn [map prefixed joined foldr].
  change (foldr String.append "" ?x) with (joined x).
  now rewrite IH, !append_assoc.
Qed.

Lemma routingText_closed (o : JSObject) :
  routingText o =
    joined (map (fun p => newline +:+ "    acl " +:+ name (value p) +:+
                          "_req hdr(host) -i " +:+ key p)
              (ownProperties o)) +:+
    joined (map (fun p => newline +:+ "    use_backend " +:+
                          name (value p) +:+ " if " +:+
                          name (value p) +:+ "_req")
              (ownProperties o)).
Proof.
  unfold routingText. rewrite prefixed_app.
  unfold aclLines, useBackendLines. rewrite !prefixed_joined.
  f_equal; f_equal; apply map_ext; intros p;
    unfold aclLine, useBackendLine, rule; cbn [matchId domain target];
    rewrite !append_assoc; reflexivity.
Qed.

Lemma filter_own_idemp (ps : list Property) :
  filter own (filter own ps) = filter own ps.
Proof.
  induction ps as [|p ps IH]; [reflexivity|].
  rewrite (filter_own_cons p ps). destruct (own p) eqn:E; [|exact IH].
  rewrite filter_own_cons, E. now rewrite IH.
Qed.

Lemma find_filter_None (f : Property -> bool) (ps : list Property) :
  find f ps = None -> find f (filter own ps) = None.
Proof.
  induction ps as [|p ps IH]; [reflexivity|].
  cbn [find]. destruct (f p) eqn:E; [discriminate|]. intros H.
  rewrite filter_own_cons. destruct (own p); [|now apply IH].
  cbn [find]. rewrite E. now apply IH.
Qed.

Lemma callable_ownOnly (o : JSObject) :
  callable o = true -> callable (ownOnly o) = true.
Proof.
  unfold callable, getHasOwnProperty, ownOnly, ownProperties.
  cbn [visited inheritsObject].
  destruct (find _ (visited o)) eqn:E; [discriminate|].
  now rewrite (find_filter_None _ _ E).
Qed.

Lemma walkable_ownOnly (o : JSObject) :
  walkable o = true -> walkable (ownOnly o) = true.
Proof.
  intros H. destruct (walkable_cases o H) as [E|C].
  - unfold walkable, ownOnly, ownProperties. cbn [visited]. now rewrite E.
  - unfold walkable. rewrite (callable_ownOnly o C).
    now destruct (visited (ownOnly o)).
Qed.

Lemma ownProperties_ownOnly (o : JSObject) :
  ownProperties (ownOnly o) = ownProperties o.
Proof. unfold ownOnly, ownProperties. cbn [visited]. apply filter_own_idemp. Qed.

Lemma routingText_ownOnly (o : JSObject) :
  routingText (ownOnly o) = routingText o.
Proof.
  unfold routingText, aclLines, useBackendLines.
  now rewrite ownProperties_ownOnly.
Qed.

Lemma referenced_ownOnly (o : JSObject) :
  referenced (ownOnly o) = referenced o.
Proof. unfold referenced. now rewrite ownProperties_ownOnly. Qed.

End RoutingFacts.
Import RoutingFacts.

(** X3. Whenever [urlRoutingConfig] returns, with no condition on the
    characters of domains and names, the text it returns is the
    host-match texts of the own properties of the map, in iteration
    order, and then the use-backend texts of the own properties, in the
    same order, and nothing else; and the world is as it was. *)
Theorem urlRoutingConfig_closed_text
    (o : JSObject) (w w' : World) (text : string) :
  urlRoutingConfig o w = Ok text w' ->
  text =
    joined (map (fun p => newline +:+ "    acl " +:+ name (value p) +:+
                          "_req hdr(host) -i " +:+ key p)
              (ownProperties o)) +:+
    joined (map (fun p => newline +:+ "    use_backend " +:+
                          name (value p) +:+ " if " +:+
                          name (value p) +:+ "_req")
              (ownProperties o)) /\
  w' = w.
Proof.
  intros H. destruct (urlRoutingConfig_inv o w w' text H) as (_ & -> & ->).
  split; [apply routingText_closed | reflexivity].
Qed.

Lemma urlRoutingConfig_closed_text_witness :
  routingText inheritingMap =
    joined (map (fun p => newline +:+ "    acl " +:+ name (value p) +:+
                          "_req hdr(host) -i " +:+ key p)
              (ownProperties inheritingMap)) +:+
    joined (map (fun p => newline +:+ "    use_backend " +:+
                          name (value p) +:+ " if " +:+
                          name (value p) +:+ "_req")
              (ownProperties inheritingMap)).
Proof.
  exact (proj1 (urlRoutingConfig_closed_text inheritingMap sampleWorld
                  sampleWorld (routingText inheritingMap) eq_refl)).
Defined.

(** X4. On a run of [withURLrouting] that returns, the properties the
    routing map inherits through its prototype chain have contributed
    nothing: run on the map reduced to its own properties, in the same
    world, [withURLrouting] returns the same service (hence the same
    document) and leaves the same world, and [urlRoutingConfig] returns
    the same text. *)
Theorem inherited_properties_are_skipped
    (n : nat) (o : JSObject) (balance : option string)
    (w w' : World) (h : ProxyService) :
  withURLrouting n o balance w = Ok h w' ->
  withURLrouting n (ownOnly o) balance w = Ok h w' /\
  urlRoutingConfig (ownOnly o) w = urlRoutingConfig o w.
Proof.
  intros H.
  destruct (withURLrouting_inv _ _ _ _ _ _ H) as (W & templ & T & -> & ->).
  pose proof (walkable_ownOnly o W) as W'.
  split.
  - rewrite (withURLrouting_Ok n (ownOnly o) balance templ w W' T).
    now rewrite routingText_ownOnly, referenced_ownOnly.
  - rewrite (urlRoutingConfig_Ok _ w W'), (urlRoutingConfig_Ok _ w W).
    now rewrite routingText_ownOnly.
Qed.

Lemma inherited_properties_are_skipped_witness :
  withURLrouting 1 (ownOnly inheritingMap) None sampleWorld =
    Ok (hapService 1
          (assemble (render sampleTemplate exposedPort)
             (routingText inheritingMap)
             (createBackendConfigs (Many [svcA]) "roundrobin")))
       (grant sampleWorld (grants [svcA])) /\
  urlRoutingConfig (ownOnly inheritingMap) sampleWorld =
    urlRoutingConfig inheritingMap sampleWorld.
Proof.
  exact (inherited_properties_are_skipped 1 inheritingMap None sampleWorld
           (grant sampleWorld (grants [svcA]))
           (hapService 1
              (assemble (render sampleTemplate exposedPort)
                 (routingText inheritingMap)
                 (createBackendConfigs (Many [svcA]) "roundrobin")))
           (withURLrouting_Ok 1 inheritingMap None sampleTemplate sampleWorld
              eq_refl eq_refl)).
Defined.

Module ServerNameFacts.

Lemma decimal_inj (i j : nat) : decimal i = decimal j -> i = j.
Proof.
  unfold decimal. intros H.
  apply (f_equal NilEmpty.uint_of_string) in H.
  rewrite !NilEmpty.usu in H. injection H as H.
  now apply Unsigned.to_uint_inj.
Qed.

Lemma lacks_append (c : ascii) (a b : string) :
  lacks c (a +:+ b) = lacks c a && lacks c b.
Proof.
  induction a as [|x a IH]; cbn [String.append lacks]; [reflexivity|].
  now rewrite IH, andb_assoc.
Qed.

Lemma decimal_lacks_space (n : nat) : lacks " "%char (decimal n) = true.
Proof.
  unfold decimal. generalize (Nat.to_uint n) as d.
  induction d; simpl; auto.
Qed.

Lemma serverName_serverLine (n a : string) (i : nat) :
  lacks " "%char n = true ->
  serverName (serverLine (serverEntry n i a)) = n +:+ "-" +:+ decimal i.
Proof.
  intros H. unfold serverName, serverLine, serverEntry;
    cbn [id address port cookie].
  cbn [dropChars String.append].
  apply firstWord_app.
  rewrite lacks_append, H. cbn [andb]. apply decimal_lacks_space.
Qed.

Lemma serverLines_are_server (es : list ServerEntry) :
  filter (fun l => isServer l = true) (map serverLine es) =
    map serverLine es.
Proof.
  induction es as [|e es IH]; [reflexivity|].
  cbn [map]. rewrite filter_cons_True; [now rewrite IH | reflexivity].
Qed.

Lemma serverNames_blockLines (b : string) (s : Service) :
  lacks " "%char (name s) = true ->
  serverNames (blockLines (descriptor b s)) =
    imap (fun i _ => name s +:+ "-" +:+ decimal i) (children s).
Proof.
  intros H. unfold serverNames, blockLines, descriptor;
    cbn [backend balanceAlgorithm servers].
  rewrite filter_cons_False by discriminate.
  rewrite filter_cons_False by discriminate.
  rewrite filter_cons_False by discriminate.
  rewrite serverLines_are_server, map_map.
  change (map ?f ?l) with (f <$> l). rewrite fmap_imap.
  apply imap_ext. intros i a _. cbn.
  now apply serverName_serverLine.
Qed.

Lemma NoDup_numbered {A} (n : string) (l : list A) (k : nat) :
  NoDup (imap (fun i _ => n +:+ "-" +:+ decimal (k + i)) l).
Proof.
  revert k. induction l as [|a l IH]; intros k; [constructor|].
  rewrite imap_cons. constructor.
  - rewrite elem_of_lookup_imap. intros (i & y & E & _).
    unfold compose in E. apply String.app_inj in E.
    apply (String.app_inj "-") in E. apply decimal_inj in E. lia.
  - unfold compose. cbv beta.
    assert (E : imap (fun (i : nat) (_ : A) => n +:+ "-" +:+ decimal (k + S i))
                  l =
                imap (fun (i : nat) (_ : A) => n +:+ "-" +:+ decimal (S k + i))
                  l).
    { apply imap_ext. intros i x _. cbv beta.
      now replace (k + S i) with (S k + i) by lia. }
    rewrite E. apply IH.
Qed.

End ServerNameFacts.
Import ServerNameFacts.

(** X5. Server names are unique within a backend: for services that
    print one item per line and whose names hold no space, the server
    names read back from the block of a service are [name-0], [name-1],
    ... in order, one per address of its snapshot, and no two of them
    are equal, whatever the addresses are (equal addresses
    included). *)
Theorem server_names_are_unique (services : list Service) (b : string) :
  singleLine b = true ->
  forallb serviceOnLines services = true ->
  forallb (fun s => lacks " "%char (name s)) services = true ->
  (forall k s, services !! k = Some s ->
     exists block,
       backendBlocks (createBackendConfigs (Many services) b) !! k
         = Some block /\
       serverNames block =
         imap (fun i _ => name s +:+ "-" +:+ decimal i) (children s)) /\
  Forall (fun block => NoDup (serverNames block))
    (backendBlocks (createBackendConfigs (Many services) b)).
Proof.
  intros Hb Hs Hn.
  rewrite (backendBlocks_createBackendConfigs _ _ Hb Hs).
  assert (N : forall s, s ∈ services -> lacks " "%char (name s) = true).
  { intros s Hin. rewrite forallb_forall in Hn. apply Hn.
    now apply list_elem_of_In. }
  split.
  - intros k s Hk. exists (blockLines (descriptor b s)).
    rewrite list_lookup_fmap, Hk. split; [reflexivity|].
    apply serverNames_blockLines, N. now apply list_elem_of_lookup_2 in Hk.
  - apply Forall_forall. intros block Hin.
    apply list_elem_of_In, in_map_iff in Hin as (s & <- & Hin).
    rewrite serverNames_blockLines by now apply N, list_elem_of_In.
    apply (NoDup_numbered (name s) (children s) 0).
Qed.

Lemma server_names_are_unique_witness :
  Forall (fun block => NoDup (serverNames block))
    (backendBlocks
       (createBackendConfigs
          (Many [mkService "web" ["10.0.0.1"; "10.0.0.1"]; db])
          "roundrobin")).
Proof.
  exact (proj2 (server_names_are_unique
                  [mkService "web" ["10.0.0.1"; "10.0.0.1"]; db] "roundrobin"
                  eq_refl eq_refl eq_refl)).
Defined.

Module EffectFacts.

Lemma grants_referenced (o : JSObject) :
  grants (referenced o) = map (fun p => grantFor (value p)) (ownProperties o).
Proof. unfold grants, referenced. now rewrite map_map. Qed.



End EffectFacts.
Import EffectFacts.



(** X7. A missing template: when no file can be read at [haproxy.cfg]
    in the module's directory, [createConfigFiles] and
    [singleServiceLoadBalancer] throw the read error for that path,
    whatever their arguments; [withURLrouting] throws it too, unless
    its loops have thrown before the file is read; so no entry point
    returns. *)
Theorem entry_points_throw_without_template
    (n : nat) (service : Service) (o : JSObject) (balance : option string)
    (frontend backend : string) (w : World) :
  template w = None ->
  createConfigFiles frontend backend w =
    Throw (ENOENT (dirname w +:+ "/haproxy.cfg")) /\
  singleServiceLoadBalancer n service balance w =
    Throw (ENOENT (dirname w +:+ "/haproxy.cfg")) /\
  withURLrouting n o balance w =
    Throw (if walkable o
           then ENOENT (dirname w +:+ "/haproxy.cfg")
           else TypeError "domainToService.hasOwnProperty is not a function").
Proof.
  intros T.
  split; [exact (createConfigFiles_Throw frontend backend w T)|].
  split; [exact (singleServiceLoadBalancer_Throw n service balance w T)|].
  destruct (walkable o) eqn:W;
    [exact (withURLrouting_ENOENT n o balance w W T)
    | exact (withURLrouting_TypeError n o balance w W)].
Qed.

Lemma entry_points_throw_without_template_witness :
  createConfigFiles "F" "B" emptyDisk =
    Throw (ENOENT ("/app" +:+ "/haproxy.cfg")) /\
  singleServiceLoadBalancer 1 web None emptyDisk =
    Throw (ENOENT ("/app" +:+ "/haproxy.cfg")) /\
  withURLrouting 1 sharedMap None emptyDisk =
    Throw (ENOENT ("/app" +:+ "/haproxy.cfg")).
Proof.
  exact (entry_points_throw_without_template 1 web sharedMap None "F" "B"
           emptyDisk eq_refl).
Defined.

(** X8. What a successful run of [withURLrouting] changes: nothing on
    disk, so the template is still there for a later call; and the
    grants already made are kept, followed by one new grant per domain
    key of the map, in iteration order, each letting [haproxy] reach
    the service under that key on port 80 (a service under two keys is
    granted twice). *)
Theorem withURLrouting_only_adds_grants
    (n : nat) (o : JSObject) (balance : option string) (w w' : World)
    (h : ProxyService) :
  withURLrouting n o balance w = Ok h w' ->
  dirname w' = dirname w /\
  disk w' = disk w /\
  template w' = template w /\
  allowed w' =
    allowed w ++ map (fun p => grantFor (value p)) (ownProperties o).
Proof.
  intros H.
  destruct (withURLrouting_inv _ _ _ _ _ _ H) as (_ & templ & T & _ & ->).
  rewrite template_grant, <- grants_referenced. repeat split.
Qed.

Lemma withURLrouting_only_adds_grants_witness :
  allowed (grant sampleWorld (grants [svcA; svcA])) =
    allowed sampleWorld ++
    map (fun p => grantFor (value p)) (ownProperties sharedMap).
Proof.
  exact (proj2 (proj2 (proj2
           (withURLrouting_only_adds_grants 1 sharedMap None sampleWorld
              (grant sampleWorld (grants [svcA; svcA]))
              _
              (withURLrouting_Ok 1 sharedMap None sampleTemplate sampleWorld
                 eq_refl eq_refl))))).
Defined.

(** X9. Whenever [urlRoutingConfig] returns a text, for a routing map
    whose domains and service names each fit on one line, the text has,
    after its empty first piece, one host-match line per own property
    of the map, in iteration order, declaring [name_req] as "Host
    header equals the domain, compared without regard to case"
    ([hdr(host) -i]); and then one use-backend line per own property,
    in the same order, routing to the backend [name] under the
    condition [name_req].  So every match declaration comes before
    every use directive. *)
Theorem urlRoutingConfig_rules_in_map_order
    (o : JSObject) (w w' : World) (text : string) :
  urlRoutingConfig o w = Ok text w' ->
  forallb propertyOnLines (ownProperties o) = true ->
  lines text =
    "" ::
    map (fun p => "    acl " +:+ backendName (value p) +:+ "_req" +:+
                  " hdr(host) -i " +:+ key p) (ownProperties o) ++
    map (fun p => "    use_backend " +:+ backendName (value p) +:+ " if " +:+
                  backendName (value p) +:+ "_req") (ownProperties o).
Proof.
  intros R H. destruct (urlRoutingConfig_inv o w w' text R) as (_ & -> & _).
  rewrite (lines_routingText o H).
  unfold aclLines, useBackendLines, backendName. f_equal. f_equal.
  apply map_ext. intros p.
  unfold aclLine, rule; cbn [matchId domain target].
  now rewrite !append_assoc.
Qed.

Lemma urlRoutingConfig_rules_in_map_order_witness :
  lines (routingText (literal [("a.com", svcA); ("b.com", svcB)])) =
  [ ""; "    acl svcA_req hdr(host) -i a.com";
    "    acl svcB_req hdr(host) -i b.com";
    "    use_backend svcA if svcA_req";
    "    use_backend svcB if svcB_req" ].
Proof.
  exact (urlRoutingConfig_rules_in_map_order
           (literal [("a.com", svcA); ("b.com", svcB)]) sampleWorld
           sampleWorld
           (routingText (literal [("a.com", svcA); ("b.com", svcB)]))
           eq_refl eq_refl).
Defined.

Module DocumentFacts.

Lemma lines_append_newline (a b : string) :
  lines (a +:+ newline +:+ b) = lines a ++ lines b.
Proof.
  induction a as [|c a IH]; [reflexivity|].
  cbn [String.append lines]. rewrite IH.
  destruct (Ascii.eqb c LF); [reflexivity|].
  destruct (lines a) as [|h t] eqn:E; [now apply lines_not_nil in E|].
  reflexivity.
Qed.

Lemma lines_append_prefixed (p : string) (ls : list string) :
  forallb singleLine ls = true ->
  lines (p +:+ prefixed ls) = lines p ++ ls.
Proof.
  intros H. destruct ls as [|l ls].
  - cbn [prefixed]. now rewrite append_empty_r, app_nil_r.
  - pose proof (lines_prefixed (l :: ls) H) as E.
    cbn [prefixed] in *. rewrite lines_newline in E.
    injection E as E. now rewrite lines_append_newline, E.
Qed.

(** The lines of an assembled document whose frontend is printed with
    [prefixed]. *)
Lemma lines_assemble (p : string) (ls : list string) (b : string) :
  forallb singleLine ls = true ->
  lines (assemble p (prefixed ls) b) = lines p ++ ls ++ lines b.
Proof.
  intros H. unfold assemble.
  rewrite <- append_assoc, lines_append_newline.
  now rewrite (lines_append_prefixed _ _ H), <- app_assoc.
Qed.

Lemma filter_acl_acl (l : list Property) :
  filter (fun x => isAcl x = true) (map (fun p => aclLine (rule p)) l) =
    map (fun p => aclLine (rule p)) l.
Proof.
  induction l as [|p l IH]; [reflexivity|].
  cbn [map]. rewrite filter_cons_True; [now rewrite IH | reflexivity].
Qed.

Lemma filter_acl_use (l : list Property) :
  filter (fun x => isAcl x = true)
    (map (fun p => useBackendLine (rule p)) l) = [].
Proof.
  induction l as [|p l IH]; [reflexivity|].
  cbn [map]. rewrite filter_cons_False; [exact IH | discriminate].
Qed.

Lemma filter_default_rules (l : list Property) :
  filter (fun x => isDefaultBackend x = true)
    (map (fun p => aclLine (rule p)) l ++
     map (fun p => useBackendLine (rule p)) l) = [].
Proof.
  rewrite filter_app.
  induction l as [|p l IH]; [reflexivity|].
  cbn [map]. rewrite !filter_cons_False by discriminate. exact IH.
Qed.

Lemma flat_map_values {B} (g : Service -> list B) (l : list Property) :
  flat_map g (map value l) = flat_map (fun p => g (value p)) l.
Proof.
  induction l as [|p l IH]; [reflexivity|].
  cbn [map flat_map]. now rewrite IH.
Qed.

End DocumentFacts.
Import DocumentFacts.

(** X10. The whole document of the single-target entry point, line by
    line: for a service and a balance token that print one item per
    line, when the template can be read and at least one replica is
    asked for, the document delivered is, in this order, the lines of
    the rendered preamble, untouched (no directive is joined to the
    last of them); the default-backend line; an empty line; the
    backend block of the service; an empty last piece. *)
Theorem singleServiceLoadBalancer_document_lines
    (n : nat) (service : Service) (balance : option string)
    (templ : string) (w : World) :
  template w = Some templ ->
  singleLine (default "roundrobin" balance) = true ->
  serviceOnLines service = true ->
  exists doc,
    delivered (singleServiceLoadBalancer (S n) service balance w) = Some doc /\
    lines doc =
      lines (render templ exposedPort) ++
      ("    default_backend " +:+ name service) :: "" ::
      blockLines (descriptor (default "roundrobin" balance) service) ++ [""].
Proof.
  intros Ht Hb Hs. eexists.
  rewrite (singleServiceLoadBalancer_Ok _ _ _ _ _ Ht), delivered_hapService.
  split; [reflexivity|].
  rewrite format_defaultBackendPattern.
  assert (Hn : singleLine (name service) = true).
  { unfold serviceOnLines in Hs. now apply andb_true_iff in Hs as [Hs _]. }
  rewrite lines_assemble
    by (cbn [forallb]; unfold defaultBackendLine, backendName;
        now rewrite singleLine_app, Hn).
  rewrite createBackendConfigs_text. cbn [toArray].
  rewrite lines_blocksText by (cbn [forallb]; now rewrite ?Hs).
  unfold sectionLines. cbn [flat_map]. rewrite app_nil_r. reflexivity.
Qed.

Lemma singleServiceLoadBalancer_document_lines_witness :
  exists doc,
    delivered (singleServiceLoadBalancer 1 web None sampleWorld) = Some doc /\
    lines doc =
      lines (render sampleTemplate exposedPort) ++
      ("    default_backend " +:+ "web") :: "" ::
      blockLines (descriptor "roundrobin" web) ++ [""].
Proof.
  exact (singleServiceLoadBalancer_document_lines 0 web None sampleTemplate
           sampleWorld eq_refl eq_refl eq_refl).
Defined.

(** X11. The whole document of the multi-target entry point, line by
    line: whenever [withURLrouting], asked for at least one replica,
    delivers a document, for a routing map and a balance token that
    print one item per line, the document is, in this order, the lines
    of the rendered preamble, untouched; the host-match lines of the
    own keys; the use-backend lines of the own keys; an empty line; and
    for each own key, in the same order, the backend block of its
    service followed by an empty piece. *)
Theorem withURLrouting_document_lines
    (n : nat) (o : JSObject) (balance : option string)
    (templ : string) (w : World) (doc : string) :
  template w = Some templ ->
  delivered (withURLrouting (S n) o balance w) = Some doc ->
  singleLine (default "roundrobin" balance) = true ->
  forallb propertyOnLines (ownProperties o) = true ->
  forallb serviceOnLines (referenced o) = true ->
  lines doc =
    lines (render templ exposedPort) ++
    map (fun p => aclLine (rule p)) (ownProperties o) ++
    map (fun p => useBackendLine (rule p)) (ownProperties o) ++
    "" ::
    flat_map (fun p =>
                blockLines
                  (descriptor (default "roundrobin" balance) (value p)) ++
                [""])
      (ownProperties o).
Proof.
  intros Ht D Hb Hp Hs.
  destruct (walkable o) eqn:W;
    [|now rewrite (withURLrouting_TypeError _ _ _ _ W) in D].
  rewrite (withURLrouting_Ok _ _ _ _ _ W Ht), delivered_hapService in D.
  injection D as <-. unfold routingText.
  rewrite (lines_assemble _ _ _ (ruleLines_singleLine o Hp)).
  rewrite createBackendConfigs_text. cbn [toArray].
  rewrite (lines_blocksText _ _ Hb Hs).
  unfold sectionLines, aclLines, useBackendLines, referenced.
  now rewrite flat_map_values, <- app_assoc.
Qed.

Lemma withURLrouting_document_lines_witness :
  lines (assemble (render sampleTemplate exposedPort)
           (routingText inheritingMap)
           (createBackendConfigs (Many [svcA]) "leastconn")) =
    lines (render sampleTemplate exposedPort) ++
    map (fun p => aclLine (rule p)) (ownProperties inheritingMap) ++
    map (fun p => useBackendLine (rule p)) (ownProperties inheritingMap) ++
    "" ::
    flat_map (fun p => blockLines (descriptor "leastconn" (value p)) ++ [""])
      (ownProperties inheritingMap).
Proof.
  exact (withURLrouting_document_lines 0 inheritingMap (Some "leastconn")
           sampleTemplate sampleWorld
           (assemble (render sampleTemplate exposedPort)
              (routingText inheritingMap)
              (createBackendConfigs (Many [svcA]) "leastconn"))
           eq_refl
           (eq_trans
              (f_equal delivered
                 (withURLrouting_Ok 1 inheritingMap (Some "leastconn")
                    sampleTemplate sampleWorld eq_refl eq_refl))
              (delivered_hapService 0 _ _))
           eq_refl eq_refl eq_refl).
Defined.

(** X12. The frontend of the multi-target mode, counted: whenever
    [urlRoutingConfig] returns a text, for a routing map whose domains
    and service names each fit on one line, the text holds exactly one
    host-match line and exactly one use-backend line per own key of the
    map, and no default-backend line: a request whose Host matches no
    domain is given no backend. *)
Theorem urlRoutingConfig_rule_counts
    (o : JSObject) (w w' : World) (text : string) :
  urlRoutingConfig o w = Ok text w' ->
  forallb propertyOnLines (ownProperties o) = true ->
  length (filter (fun l => isAcl l = true) (lines text)) =
    length (ownProperties o) /\
  length (filter (fun l => isUseBackend l = true) (lines text)) =
    length (ownProperties o) /\
  filter (fun l => isDefaultBackend l = true) (lines text) = [].
Proof.
  intros R H. destruct (urlRoutingConfig_inv o w w' text R) as (_ & -> & _).
  rewrite (lines_routingText o H).
  unfold aclLines, useBackendLines.
  rewrite !filter_cons_False by discriminate.
  rewrite filter_default_rules, !filter_app.
  rewrite filter_acl_acl, filter_acl_use.
  rewrite filter_useBackend_acl, filter_useBackend_use.
  rewrite app_nil_r. cbn [app]. rewrite !length_map. repeat split.
Qed.

Lemma urlRoutingConfig_rule_counts_witness :
  length (filter (fun l => isAcl l = true)
            (lines (routingText inheritingMap))) =
    length (ownProperties inheritingMap).
Proof.
  exact (proj1 (urlRoutingConfig_rule_counts inheritingMap sampleWorld
                  sampleWorld (routingText inheritingMap)
                  eq_refl eq_refl)).
Defined.

(** X13. A routing map without own keys (empty, or holding inherited
    properties only): whenever [withURLrouting] returns on it, the
    template has been read, the [n] replicas returned hold the rendered
    preamble followed by one line feed, with no rule and no backend,
    and no grant has been made: the world is exactly as it was. *)
Theorem withURLrouting_without_own_keys
    (n : nat) (o : JSObject) (balance : option string)
    (w w' : World) (h : ProxyService) :
  withURLrouting n o balance w = Ok h w' ->
  ownProperties o = [] ->
  exists templ,
    template w = Some templ /\
    h = hapService n (render templ exposedPort +:+ newline) /\
    w' = w.
Proof.
  intros R Ho.
  destruct (withURLrouting_inv _ _ _ _ _ _ R) as (_ & templ & T & -> & ->).
  exists templ. split; [exact T|].
  unfold referenced, routingText, aclLines, useBackendLines.
  rewrite Ho. cbn [map app prefixed grants]. rewrite grant_nil.
  split; reflexivity.
Qed.

Lemma withURLrouting_without_own_keys_witness :
  exists templ,
    template sampleWorld = Some templ /\
    hapService 3 (render sampleTemplate exposedPort +:+ newline) =
    hapService 3 (render templ exposedPort +:+ newline) /\
    sampleWorld = sampleWorld.
Proof.
  exact (withURLrouting_without_own_keys 3
           (mkObject [mkProperty "legacy.com" false svcB] true) None
           sampleWorld sampleWorld
           (hapService 3 (render sampleTemplate exposedPort +:+ newline))
           eq_refl eq_refl).
Defined.
